(** * cf-flux-remix: the [generate-image] route

    A shallow embedding of [app/routes/generate-image.tsx]: the server-side
    [loader] and [action] of the route and the submit guard of the
    [GenerateImage] component, with the properties of the route's
    request/response contract.

    Conventions.
    - A JavaScript string is held as the [string] of its UTF-8 encoding
      (form values are scalar-value strings, so nothing is lost, and
      concatenation is concatenation).
    - A JavaScript number is a double.  Those of this route are results of
      [parseInt] and HTTP status codes: [NaN], an infinity, or a double
      whose value is an integer, [Finite neg mag] (sign and magnitude, so
      that [-0] exists).
    - An [async] function is a computation that leaves a trace of the
      observable events (console output and calls of the image generation
      service) and either returns, throws, or never settles. *)

From Stdlib Require Import String Ascii List NArith Bool Lia.
From Stdlib Require Import Decimal DecimalString DecimalPos DecimalN PeanoNat.
Import ListNotations.
Open Scope string_scope.

(** ** JavaScript values *)

Inductive number : Type :=
| NaN
| Infinity (negative : bool)
| Finite (negative : bool) (magnitude : N).

(** A [File] entry of a multipart form. *)
Record File : Type := { file_name : string; file_type : string; file_size : N }.

(** The values that flow through the route.  [VObject] is any other object
    or function (named for reference only); it is always truthy. *)
Inductive value : Type :=
| VUndefined
| VNull
| VBoolean (b : bool)
| VNumber (n : number)
| VString (s : string)
| VFile (f : File)
| VObject (name : string).

(** [ToBoolean]: what [!v] and [v || w] test. *)
Definition ToBoolean (v : value) : bool :=
  match v with
  | VUndefined | VNull => false
  | VBoolean b => b
  | VNumber NaN => false
  | VNumber (Infinity _) => true
  | VNumber (Finite _ m) => negb (N.eqb m 0)
  | VString s => negb (String.eqb s "")
  | VFile _ | VObject _ => true
  end.

(** ** Form data

    [FormData.get(name)] returns the first value of that name, a string or
    a [File], or [null] ([None]) when the form has no such field. *)

Inductive FormDataEntryValue : Type :=
| EString (s : string)
| EFile (f : File).

Definition FormData : Type := list (string * FormDataEntryValue).

Fixpoint FormData_get (fd : FormData) (name : string)
  : option FormDataEntryValue :=
  match fd with
  | [] => None
  | (k, v) :: rest => if String.eqb k name then Some v else FormData_get rest name
  end.

(** The result of [formData.get] as a value. *)
Definition of_form (e : option FormDataEntryValue) : value :=
  match e with
  | None => VNull
  | Some (EString s) => VString s
  | Some (EFile f) => VFile f
  end.

(** [ToString] of a form value: what a template literal, a property
    access (for its key) and [parseInt] (for its argument) apply. *)
Definition ToString (e : option FormDataEntryValue) : string :=
  match e with
  | Some (EString s) => s
  | Some (EFile _) => "[object File]"
  | None => "null"
  end.

(** [e === lit] for a string literal [lit]. *)
Definition strict_eq_string (e : option FormDataEntryValue) (lit : string)
  : bool :=
  match e with
  | Some (EString s) => String.eqb s lit
  | _ => false
  end.

(** ** [parseInt(string, 10)] *)

Definition byte_is (c : ascii) (n : N) : bool := N.eqb (N_of_ascii c) n.

(** One-byte white space and line terminators: TAB, LF, VT, FF, CR, SP. *)
Definition ws1 (c : ascii) : bool :=
  let n := N_of_ascii c in
  (N.leb 9 n && N.leb n 13) || N.eqb n 32.

(** U+00A0. *)
Definition ws2 (a b : ascii) : bool := byte_is a 194 && byte_is b 160.

(** U+1680, U+2000..U+200A, U+2028, U+2029, U+202F, U+205F, U+3000,
    U+FEFF. *)
Definition ws3 (a b c : ascii) : bool :=
  let x := N_of_ascii a in
  let y := N_of_ascii b in
  let z := N_of_ascii c in
  (N.eqb x 225 && N.eqb y 154 && N.eqb z 128)
  || (N.eqb x 226 && N.eqb y 128
        && ((N.leb 128 z && N.leb z 138) || N.eqb z 168 || N.eqb z 169
            || N.eqb z 175))
  || (N.eqb x 226 && N.eqb y 129 && N.eqb z 159)
  || (N.eqb x 227 && N.eqb y 128 && N.eqb z 128)
  || (N.eqb x 239 && N.eqb y 187 && N.eqb z 191).

(** Leading [StrWhiteSpaceChar]s removed. *)
Fixpoint trimStart (s : string) : string :=
  match s with
  | EmptyString => s
  | String a r1 =>
      if ws1 a then trimStart r1
      else
        match r1 with
        | EmptyString => s
        | String b r2 =>
            if ws2 a b then trimStart r2
            else
              match r2 with
              | EmptyString => s
              | String c r3 => if ws3 a b c then trimStart r3 else s
              end
        end
  end.

Definition digit_of (c : ascii) : option N :=
  let n := N_of_ascii c in
  if N.leb 48 n && N.leb n 57 then Some (n - 48)%N else None.

(** The longest prefix of decimal digits, read as a number; [None] when
    that prefix is empty. *)
Fixpoint digits_from (acc : option N) (s : string) : option N :=
  match s with
  | EmptyString => acc
  | String c r =>
      match digit_of c with
      | None => acc
      | Some d =>
          digits_from
            (Some (match acc with None => d | Some a => 10 * a + d end)%N) r
      end
  end.

(** The double for the integer [m] with the given sign: [m] itself up to
    2^53; beyond, [m] rounded to 53 significant bits, to nearest and ties
    to even, and an infinity from 2^1024 on. *)
Definition double_of_integer (negative : bool) (m : N) : number :=
  if (m <=? 2 ^ 53)%N then Finite negative m
  else
    let e := (N.log2 m - 52)%N in
    let q := N.shiftr m e in
    let r := (m mod 2 ^ e)%N in
    let half := (2 ^ (e - 1))%N in
    let q' := if (half <? r)%N || ((r =? half)%N && N.odd q)
              then (q + 1)%N else q in
    let v := N.shiftl q' e in
    if (2 ^ 1024 <=? v)%N then Infinity negative else Finite negative v.

Definition parseInt (v : option FormDataEntryValue) : number :=
  let inputString := trimStart (ToString v) in
  let '(sign, rest) :=
    match inputString with
    | String "-" r => (true, r)
    | String "+" r => (false, r)
    | _ => (false, inputString)
    end in
  match digits_from None rest with
  | None => NaN
  | Some mathInt => double_of_integer sign mathInt
  end.

(** The decimal numeral of a natural number: what [String(k)] is, and
    what a range input submits for its value [k]. *)
Definition decimal (k : N) : string := NilZero.string_of_uint (N.to_uint k).

(** [n] is an integer with [lo <= n <= hi]. *)
Definition integer_between (lo hi : N) (n : number) : Prop :=
  exists k, n = Finite false k /\ (lo <= k <= hi)%N.

(** ** Objects and property access

    [CUSTOMER_MODEL_MAP] is a plain object used as a map.  [o[key]] looks
    [key] up among the object's own properties and then along the prototype
    chain: an object made by a literal or by [JSON.parse] inherits from
    [Object.prototype]; one made by [Object.create(null)] inherits from
    nothing.  The own properties are listed in property order, the order
    in which [Object.keys] enumerates them. *)

Inductive Prototype : Type := ObjectPrototype | NullPrototype.

Record JSObject : Type := {
  own : list (string * value);
  proto : Prototype
}.

Fixpoint own_property (props : list (string * value)) (key : string)
  : option value :=
  match props with
  | [] => None
  | (k, v) :: rest => if String.eqb k key then Some v else own_property rest key
  end.

(** The methods of [Object.prototype]. *)
Definition Object_prototype_methods : list string :=
  [ "constructor"; "hasOwnProperty"; "isPrototypeOf"; "propertyIsEnumerable";
    "toLocaleString"; "toString"; "valueOf";
    "__defineGetter__"; "__defineSetter__";
    "__lookupGetter__"; "__lookupSetter__" ].

(** [Object.prototype[key]], read through an object that inherits from it:
    a method, or the accessor [__proto__], which answers the prototype. *)
Definition Object_prototype_get (key : string) : value :=
  if String.eqb key "__proto__" then VObject "Object.prototype"
  else if existsb (String.eqb key) Object_prototype_methods
       then VObject ("Object.prototype." ++ key)
       else VUndefined.

(** [o[key]]. *)
Definition Get (o : JSObject) (key : string) : value :=
  match own_property (own o) key with
  | Some v => v
  | None =>
      match proto o with
      | ObjectPrototype => Object_prototype_get key
      | NullPrototype => VUndefined
      end
  end.

Definition Object_keys (o : JSObject) : list string := map fst (own o).

(** ** The application context

    [createAppContext], the configuration, the image generation service and
    [AppError] live in modules of the application that this route imports
    ([../context], [../utils/error]); the route sees them through the
    interface below. *)

(** Modelled from the spec: the typed application error of [../utils/error],
    an error with a message that carries an optional status code. *)
Record AppError : Type := {
  message : string;
  status : option number
}.

(** What a [catch] clause can receive: an instance of [AppError], or
    anything else ([error instanceof AppError] is false). *)
Inductive thrown : Type :=
| AppErrorInstance (e : AppError)
| OtherError (name : string).

(** The state a promise is observed in by [await]: it fulfils, it rejects,
    or it never settles. *)
Inductive Promise (A : Type) : Type :=
| Fulfilled (a : A)
| Rejected (e : thrown)
| Pending.
Arguments Fulfilled {A} a.
Arguments Rejected {A} e.
Arguments Pending {A}.

(** Modelled from the spec: the result the image generation service
    resolves with, [{image, prompt, translatedPrompt}]. *)
Record GenerationResult : Type := {
  image : string;
  prompt : string;
  translatedPrompt : string
}.

(** The service as the route uses it: a connection test and
    [generateImage(prompt, model, size, numSteps)]. *)
Record ImageGenerationService : Type := {
  testCfAiConnection : Promise unit;
  generateImage : value -> value -> value -> number -> Promise GenerationResult
}.

Record Config : Type := {
  CUSTOMER_MODEL_MAP : JSObject;
  FLUX_NUM_STEPS : value
}.

(** The value of [createAppContext(context)]. *)
Record AppContext : Type := {
  imageGenerationService : ImageGenerationService;
  config : Config
}.

Record Request : Type := { formData : Promise FormData }.

(** ** Asynchronous computations with a trace *)

Inductive event : Type :=
| console_log (msg : string)
| console_error (msg : string) (error : thrown)
| call_testCfAiConnection
| call_generateImage (prompt model size : value) (numSteps : number).

Inductive completion (A : Type) : Type :=
| Return (a : A)
| Throw (e : thrown)
| Never.
Arguments Return {A} a.
Arguments Throw {A} e.
Arguments Never {A}.

Definition Async (A : Type) : Type := (list event * completion A)%type.

Definition trace {A} (m : Async A) : list event := fst m.
Definition outcome {A} (m : Async A) : completion A := snd m.

Definition ret {A} (a : A) : Async A := ([], Return a).

Definition throw {A} (e : thrown) : Async A := ([], Throw e).

Definition bind {A B} (m : Async A) (f : A -> Async B) : Async B :=
  match m with
  | (t, Return a) => let '(t', c) := f a in ((t ++ t')%list, c)
  | (t, Throw e) => (t, Throw e)
  | (t, Never) => (t, Never)
  end.

Notation "x <- m ;; k" := (bind m (fun x => k))
  (at level 61, m at next level, right associativity).
Notation "m ;; k" := (bind m (fun _ => k))
  (at level 61, right associativity).

Definition emit (ev : event) : Async unit := ([ev], Return tt).

(** [await p]. *)
Definition await {A} (p : Promise A) : Async A :=
  match p with
  | Fulfilled a => ret a
  | Rejected e => throw e
  | Pending => ([], Never)
  end.

(** [try { m } catch (error) { handler error }]. *)
Definition try_catch {A} (m : Async A) (handler : thrown -> Async A)
  : Async A :=
  match m with
  | (t, Throw e) => let '(t', c) := handler e in ((t ++ t')%list, c)
  | other => other
  end.

(** ** Responses

    [json(data, init)] of Remix is
    [new Response(JSON.stringify(data), init)]: the status defaults to 200,
    is converted to an unsigned 16-bit integer, and the constructor throws a
    [RangeError] for a status outside 200..599 and a [TypeError] for a body
    given with a null-body status. *)

Inductive data : Type :=
| ErrorData (error : string)
| ResultData (result : GenerationResult)
| LoaderData (models : list (string * value)) (config : Config).

Record Response : Type := {
  response_status : N;
  response_body : data
}.

Definition ToUint16 (n : number) : N :=
  match n with
  | NaN => 0
  | Infinity _ => 0
  | Finite false m => m mod 65536
  | Finite true m => (65536 - m mod 65536) mod 65536
  end%N.

Definition null_body_status (s : N) : bool :=
  existsb (N.eqb s) [101; 103; 204; 205; 304]%N.

Definition json (d : data) (init_status : option number) : Async Response :=
  let s := match init_status with
           | None => 200%N
           | Some n => ToUint16 n
           end in
  if (s <? 200)%N || (599 <? s)%N then throw (OtherError "RangeError")
  else if null_body_status s then throw (OtherError "TypeError")
  else ret {| response_status := s; response_body := d |}.

(** [n || 500] for an optional number [n]. *)
Definition or_500 (st : option number) : number :=
  match st with
  | Some n => if ToBoolean (VNumber n) then n else Finite false 500
  | None => Finite false 500
  end.

(** ** The route: [loader] and [action]

    Both take the application context that [createAppContext(context)]
    returns.  A console line is recorded by its first argument (the label),
    [console.error] with the error it reports. *)

(** [loader]: probe the backend inside [try]/[catch], then answer with the
    catalog as a list of [{id, value}] and the configuration. *)
Definition loader (appContext : AppContext) : Async Response :=
  let config := config appContext in
  try_catch
    (emit call_testCfAiConnection ;;
     await (testCfAiConnection (imageGenerationService appContext)) ;;
     emit (console_log "Cloudflare AI connection test successful"))
    (fun error =>
       emit (console_error "Cloudflare AI connection test failed:" error)) ;;
  let models :=
    map (fun id => (id, Get (CUSTOMER_MODEL_MAP config) id))
        (Object_keys (CUSTOMER_MODEL_MAP config)) in
  json (LoaderData models config) None.

(** [action]: read the form, check the prompt and the model, call the
    service inside [try]/[catch] and translate its result or its failure
    into a response. *)
Definition action (request : Request) (appContext : AppContext)
  : Async Response :=
  let imageGenerationService := imageGenerationService appContext in
  let config := config appContext in
  emit (console_log "Generate image action started") ;;
  emit (console_log "Config:") ;;
  formData <- await (formData request) ;;
  let prompt := FormData_get formData "prompt" in
  let enhance := strict_eq_string (FormData_get formData "enhance") "true" in
  let modelId := FormData_get formData "model" in
  let size := FormData_get formData "size" in
  let numSteps := parseInt (FormData_get formData "numSteps") in
  emit (console_log "Form data:") ;;
  if negb (ToBoolean (of_form prompt)) then
    json (ErrorData "未找到提示词") (Some (Finite false 400))
  else
    let model := Get (CUSTOMER_MODEL_MAP config) (ToString modelId) in
    if negb (ToBoolean model) then
      json (ErrorData "无效的模型") (Some (Finite false 400))
    else
      try_catch
        (let prompt' :=
           if enhance then VString ("---tl " ++ ToString prompt)
           else of_form prompt in
         emit (call_generateImage prompt' model (of_form size) numSteps) ;;
         result <-
           await (generateImage imageGenerationService
                    prompt' model (of_form size) numSteps) ;;
         emit (console_log "Image generation successful") ;;
         json (ResultData result) None)
        (fun error =>
           emit (console_error "生成图片时出错:" error) ;;
           match error with
           | AppErrorInstance e =>
               json (ErrorData ("生成图片失败: " ++ message e))
                    (Some (or_500 (status e)))
           | OtherError _ =>
               json (ErrorData "生成图片失败: 未知错误")
                    (Some (Finite false 500))
           end).

(** ** The component: the submit guard

    [GenerateImage] reads [useNavigation().state], derives [isSubmitting]
    from it and hands [handleSubmit] to Remix's [<Form onSubmit>]. *)

Inductive NavigationState : Type := idle | loading | submitting.

Definition isSubmitting (navigation_state : NavigationState) : bool :=
  match navigation_state with
  | submitting => true
  | idle | loading => false
  end.

Record FormEvent : Type := { defaultPrevented : bool }.

Definition preventDefault (e : FormEvent) : FormEvent :=
  {| defaultPrevented := true |}.

Definition handleSubmit (isSubmitting : bool) (e : FormEvent) : FormEvent :=
  if isSubmitting then preventDefault e else e.

(** A client session: the router's navigation state, the navigation state
    the component read at its last render, the number of submissions
    dispatched and not yet answered, and the number dispatched so far. *)
Record Session : Type := {
  navigation_state : NavigationState;
  rendered : NavigationState;
  in_flight : nat;
  dispatched : nat
}.

Definition initial_session : Session :=
  {| navigation_state := idle; rendered := idle;
     in_flight := 0; dispatched := 0 |}.

(** A submit event on [<Form method="post" onSubmit={handleSubmit}>]: the
    component's handler runs first, with the [isSubmitting] of the last
    render, which it closed over; if it prevented the default the event
    ends there; otherwise the router starts a submission, the navigation
    becomes [submitting] and the request is sent. *)
Definition Form_onSubmit (c : Session) : Session :=
  let e := handleSubmit (isSubmitting (rendered c))
                        {| defaultPrevented := false |} in
  if defaultPrevented e then c
  else {| navigation_state := submitting;
          rendered := rendered c;
          in_flight := S (in_flight c);
          dispatched := S (dispatched c) |}.

(** The component renders again and reads the current navigation. *)
Definition render (c : Session) : Session :=
  {| navigation_state := navigation_state c;
     rendered := navigation_state c;
     in_flight := in_flight c;
     dispatched := dispatched c |}.

(** The answer to the pending submission arrives: the navigation leaves
    [submitting], for [loading] while the loaders run again or for [idle]. *)
Definition action_settled (next : NavigationState) (c : Session) : Session :=
  {| navigation_state := next;
     rendered := rendered c;
     in_flight := pred (in_flight c);
     dispatched := dispatched c |}.

Definition loaders_settled (c : Session) : Session :=
  {| navigation_state := idle;
     rendered := rendered c;
     in_flight := in_flight c;
     dispatched := dispatched c |}.

(** The answer to a submission that a later one superseded arrives; the
    router drops it. *)
Definition superseded_settled (c : Session) : Session :=
  {| navigation_state := navigation_state c;
     rendered := rendered c;
     in_flight := pred (in_flight c);
     dispatched := dispatched c |}.

(** What happens without the user: renders and answers. *)
Inductive router_step : Session -> Session -> Prop :=
| step_render c :
    router_step c (render c)
| step_action_settled c next :
    navigation_state c = submitting ->
    next <> submitting ->
    router_step c (action_settled next c)
| step_loaders_settled c :
    navigation_state c = loading ->
    router_step c (loaders_settled c)
| step_superseded_settled c :
    (if isSubmitting (navigation_state c) then 1 else 0) < in_flight c ->
    router_step c (superseded_settled c).

Inductive session_step : Session -> Session -> Prop :=
| step_submit c :
    session_step c (Form_onSubmit c)
| step_router c c' :
    router_step c c' ->
    session_step c c'.

Inductive reachable : Session -> Prop :=
| reachable_initial : reachable initial_session
| reachable_step c c' : reachable c -> session_step c c' -> reachable c'.

(** The sessions in which every submit event finds the component rendered
    from the current navigation: a render has followed each change of the
    navigation before the user submits again. *)
Inductive reachable_rendered : Session -> Prop :=
| rendered_initial : reachable_rendered initial_session
| rendered_submit c :
    reachable_rendered c ->
    rendered c = navigation_state c ->
    reachable_rendered (Form_onSubmit c)
| rendered_router c c' :
    reachable_rendered c ->
    router_step c c' ->
    reachable_rendered c'.

(** The navigation is [submitting] exactly while a submission is in
    flight, and then there is one. *)
Definition session_invariant (c : Session) : Prop :=
  match navigation_state c with
  | submitting => in_flight c = 1
  | idle | loading => in_flight c = 0
  end.

(** ** Observations on traces *)

(** The arguments of the calls of [generateImage], in order. *)
Fixpoint generateImage_calls (t : list event)
  : list (value * value * value * number) :=
  match t with
  | [] => []
  | call_generateImage p m s n :: rest => (p, m, s, n) :: generateImage_calls rest
  | _ :: rest => generateImage_calls rest
  end.

(** ** Views of a run of [action] *)

(** A status the [Response] constructor accepts with a body. *)
Definition valid_status (c : N) : Prop :=
  (200 <= c <= 599)%N /\ c <> 204%N /\ c <> 205%N /\ c <> 304%N.

(** The three lines [action] logs before it validates. *)
Definition preamble : list event :=
  [ console_log "Generate image action started";
    console_log "Config:";
    console_log "Form data:" ].

(** The arguments [action] passes to [generateImage] for a form. *)
Definition outbound_prompt (fd : FormData) : value :=
  if strict_eq_string (FormData_get fd "enhance") "true"
  then VString ("---tl " ++ ToString (FormData_get fd "prompt"))
  else of_form (FormData_get fd "prompt").

Definition resolved_model (appContext : AppContext) (fd : FormData) : value :=
  Get (CUSTOMER_MODEL_MAP (config appContext))
      (ToString (FormData_get fd "model")).

Definition generateImage_call (appContext : AppContext) (fd : FormData)
  : event :=
  call_generateImage (outbound_prompt fd) (resolved_model appContext fd)
                     (of_form (FormData_get fd "size"))
                     (parseInt (FormData_get fd "numSteps")).

Definition generateImage_promise (appContext : AppContext) (fd : FormData)
  : Promise GenerationResult :=
  generateImage (imageGenerationService appContext)
                (outbound_prompt fd) (resolved_model appContext fd)
                (of_form (FormData_get fd "size"))
                (parseInt (FormData_get fd "numSteps")).

(** Both checks of [action] pass. *)
Definition validated (appContext : AppContext) (fd : FormData) : bool :=
  ToBoolean (of_form (FormData_get fd "prompt"))
  && ToBoolean (resolved_model appContext fd).

(** The response [action] builds in its [catch] clause. *)
Definition failure_response (error : thrown) : Async Response :=
  match error with
  | AppErrorInstance e =>
      json (ErrorData ("生成图片失败: " ++ message e))
           (Some (or_500 (status e)))
  | OtherError _ =>
      json (ErrorData "生成图片失败: 未知错误") (Some (Finite false 500))
  end.

(** The paths through [action], each with the trace it leaves and the way
    it completes. *)
Inductive Run (request : Request) (appContext : AppContext)
  : Async Response -> Prop :=
| Run_formData_rejected e :
    formData request = Rejected e ->
    Run request appContext
        ([console_log "Generate image action started"; console_log "Config:"],
         Throw e)
| Run_formData_pending :
    formData request = Pending ->
    Run request appContext
        ([console_log "Generate image action started"; console_log "Config:"],
         Never)
| Run_no_prompt fd :
    formData request = Fulfilled fd ->
    ToBoolean (of_form (FormData_get fd "prompt")) = false ->
    Run request appContext
        (preamble,
         Return {| response_status := 400;
                   response_body := ErrorData "未找到提示词" |})
| Run_invalid_model fd :
    formData request = Fulfilled fd ->
    ToBoolean (of_form (FormData_get fd "prompt")) = true ->
    ToBoolean (resolved_model appContext fd) = false ->
    Run request appContext
        (preamble,
         Return {| response_status := 400;
                   response_body := ErrorData "无效的模型" |})
| Run_fulfilled fd R :
    formData request = Fulfilled fd ->
    validated appContext fd = true ->
    generateImage_promise appContext fd = Fulfilled R ->
    Run request appContext
        ((preamble ++ [generateImage_call appContext fd;
                       console_log "Image generation successful"])%list,
         Return {| response_status := 200; response_body := ResultData R |})
| Run_rejected fd e :
    formData request = Fulfilled fd ->
    validated appContext fd = true ->
    generateImage_promise appContext fd = Rejected e ->
    Run request appContext
        ((preamble ++ [generateImage_call appContext fd;
                       console_error "生成图片时出错:" e])%list,
         outcome (failure_response e))
| Run_pending fd :
    formData request = Fulfilled fd ->
    validated appContext fd = true ->
    generateImage_promise appContext fd = Pending ->
    Run request appContext
        ((preamble ++ [generateImage_call appContext fd])%list, Never).

(** The status and the message [action] answers a failure with. *)
Definition failure_status (error : thrown) : number :=
  match error with
  | AppErrorInstance e => or_500 (status e)
  | OtherError _ => Finite false 500
  end.

Definition failure_message (error : thrown) : string :=
  match error with
  | AppErrorInstance e => "生成图片失败: " ++ message e
  | OtherError _ => "生成图片失败: 未知错误"
  end.

(** The catalog entries as [loader] lists them. *)
Definition listed_models (o : JSObject) : list (string * value) :=
  map (fun id => (id, Get o id)) (Object_keys o).

(** The keys a plain object inherits from [Object.prototype]. *)
Definition inherited_key (key : string) : bool :=
  existsb (String.eqb key) ("__proto__" :: Object_prototype_methods).

(** Every own value of the object is truthy. *)
Definition truthy_values (o : JSObject) : Prop :=
  forall k v, In (k, v) (own o) -> ToBoolean v = true.

(** ** The component: state and handlers

    [GenerateImage] keeps five pieces of state, initialised from the
    configuration that [useLoaderData] returns, and changes them in its
    event handlers.  Each handler runs on the state of the latest render. *)

Module GenerateImage.

Record State : Type := {
  prompt : string;
  enhance : bool;
  model : value;
  size : string;
  numSteps : value
}.

Section WithLoaderData.

Variable config : Config.

(** The [useState] initialisers. *)
Definition initial : State :=
  {| prompt := "";
     enhance := false;
     model := Get (CUSTOMER_MODEL_MAP config) "FLUX.1-Schnell-CF";
     size := "1024x1024";
     numSteps := FLUX_NUM_STEPS config |}.

Definition handleEnhanceToggle (s : State) : State :=
  {| prompt := prompt s;
     enhance := negb (enhance s);
     model := model s;
     size := size s;
     numSteps := numSteps s |}.

Definition handleReset (s : State) : State :=
  {| prompt := "";
     enhance := false;
     model := Get (CUSTOMER_MODEL_MAP config) "FLUX.1-Schnell-CF";
     size := "1024x1024";
     numSteps := FLUX_NUM_STEPS config |}.

(** [setPrompt(e.target.value)], [setModel(e.target.value)] and
    [setSize(e.target.value)]. *)
Definition handlePromptChange (target_value : string) (s : State) : State :=
  {| prompt := target_value;
     enhance := enhance s;
     model := model s;
     size := size s;
     numSteps := numSteps s |}.

Definition handleModelChange (target_value : string) (s : State) : State :=
  {| prompt := prompt s;
     enhance := enhance s;
     model := VString target_value;
     size := size s;
     numSteps := numSteps s |}.

Definition handleSizeChange (target_value : string) (s : State) : State :=
  {| prompt := prompt s;
     enhance := enhance s;
     model := model s;
     size := target_value;
     numSteps := numSteps s |}.

(** [setNumSteps(parseInt(e.target.value, 10))]. *)
Definition handleNumStepsChange (target_value : string) (s : State) : State :=
  {| prompt := prompt s;
     enhance := enhance s;
     model := model s;
     size := size s;
     numSteps := VNumber (parseInt (Some (EString target_value))) |}.

(** What the user does to the form's controls. *)
Inductive Event : Type :=
| EnhanceToggle
| Reset
| PromptChange (target_value : string)
| ModelChange (target_value : string)
| SizeChange (target_value : string)
| NumStepsChange (target_value : string).

Definition handle (s : State) (ev : Event) : State :=
  match ev with
  | EnhanceToggle => handleEnhanceToggle s
  | Reset => handleReset s
  | PromptChange v => handlePromptChange v s
  | ModelChange v => handleModelChange v s
  | SizeChange v => handleSizeChange v s
  | NumStepsChange v => handleNumStepsChange v s
  end.

(** The state after a sequence of events, one render after each. *)
Definition after (evs : list Event) (s : State) : State :=
  fold_left handle evs s.

End WithLoaderData.

(** [b.toString()]. *)
Definition Boolean_toString (b : bool) : string :=
  if b then "true" else "false".

(** The value of the hidden input [enhance] and of the [prompt] textarea. *)
Definition hidden_enhance (s : State) : string := Boolean_toString (enhance s).

Definition textarea_prompt (s : State) : string := prompt s.

End GenerateImage.

(** ** The component: what it renders of the action's data

    [actionData] is [undefined] before any submission and afterwards the
    body of the action's response. *)

(** [actionData?.error] and [actionData?.image]. *)
Definition actionData_error (actionData : option data) : value :=
  match actionData with
  | Some (ErrorData e) => VString e
  | _ => VUndefined
  end.

Definition actionData_image (actionData : option data) : value :=
  match actionData with
  | Some (ResultData r) => VString (image r)
  | _ => VUndefined
  end.

(** The error box under the form: [actionData?.error && <div>...</div>]. *)
Definition error_box (actionData : option data) : option string :=
  match actionData_error actionData with
  | VString e => if ToBoolean (VString e) then Some e else None
  | _ => None
  end.

(** The result column. *)
Inductive ResultPanel : Type :=
| Spinner
| GeneratedImage (src original translated : string)
| Placeholder.

Definition result_panel (isSubmitting : bool) (actionData : option data)
  : ResultPanel :=
  if isSubmitting then Spinner
  else if ToBoolean (actionData_image actionData) then
    match actionData with
    | Some (ResultData r) =>
        GeneratedImage ("data:image/jpeg;base64," ++ image r)
                       (prompt r) (translatedPrompt r)
    | _ => Placeholder
    end
  else Placeholder.

(** The submit button: its label and whether it is disabled. *)
Definition submit_button (isSubmitting : bool) : string * bool :=
  (if isSubmitting then "生成中..." else "生成图片", isSubmitting).

(** ** Sample inputs *)

Definition sample_catalog : JSObject :=
  {| own := [("FLUX.1-Schnell-CF",
              VString "@cf/black-forest-labs/flux-1-schnell")];
     proto := ObjectPrototype |}.

Definition sample_context (probe : Promise unit)
           (generation : Promise GenerationResult) : AppContext :=
  {| imageGenerationService :=
       {| testCfAiConnection := probe;
          generateImage := fun _ _ _ _ => generation |};
     config := {| CUSTOMER_MODEL_MAP := sample_catalog;
                  FLUX_NUM_STEPS := VNumber (Finite false 4) |} |}.

Definition sample_result : GenerationResult :=
  {| image := "/9j/4AAQ"; prompt := "a cat"; translatedPrompt := "a cat" |}.

Definition submission_form (prompt enhance model size numSteps : string)
  : FormData :=
  [ ("prompt", EString prompt);
    ("enhance", EString enhance);
    ("model", EString model);
    ("size", EString size);
    ("numSteps", EString numSteps) ].

Definition submission (prompt enhance model size numSteps : string)
  : Request :=
  {| formData := Fulfilled (submission_form prompt enhance model size numSteps) |}.

(** * Properties *)

(** ** [parseInt] on samples *)

Example parseInt_4 : parseInt (Some (EString "4")) = Finite false 4.
Proof. reflexivity. Qed.
Example parseInt_px : parseInt (Some (EString "  -12px")) = Finite true 12.
Proof. reflexivity. Qed.
Example parseInt_null : parseInt None = NaN.
Proof. reflexivity. Qed.
Example parseInt_nbsp :
  parseInt
    (Some (EString (String (ascii_of_N 194) (String (ascii_of_N 160) "7.5"))))
  = Finite false 7.
Proof. reflexivity. Qed.

Example parseInt_beyond_2_53 :
  parseInt (Some (EString "9007199254740993"))
  = Finite false 9007199254740992.
Proof. vm_compute. reflexivity. Qed.

Example parseInt_tie_to_even :
  parseInt (Some (EString "9007199254740995"))
  = Finite false 9007199254740996.
Proof. vm_compute. reflexivity. Qed.

Example parseInt_overflow :
  parseInt
    (Some (EString
       ("1" ++ String.concat "" (repeat "0000000000" 31))))
  = Infinity false.
Proof. vm_compute. reflexivity. Qed.

(** ** [parseInt] on decimal numerals *)

Lemma trimStart_digit c r :
  digit_of c <> None -> trimStart (String c r) = String c r.
Proof.
  intros Hd.
  assert (Hc : (48 <= N_of_ascii c <= 57)%N).
  { unfold digit_of in Hd.
    destruct (N.leb 48 (N_of_ascii c)) eqn:H1; [|contradiction].
    destruct (N.leb (N_of_ascii c) 57) eqn:H2; [|contradiction].
    apply N.leb_le in H1, H2. lia. }
  assert (H1 : ws1 c = false).
  { unfold ws1. apply orb_false_intro.
    - apply andb_false_intro2. apply N.leb_gt. lia.
    - apply N.eqb_neq. lia. }
  assert (H2 : forall b, ws2 c b = false).
  { intros b. unfold ws2, byte_is. apply andb_false_intro1.
    apply N.eqb_neq. lia. }
  assert (H3 : forall a b, ws3 c a b = false).
  { intros a b. unfold ws3.
    assert (E : forall k, (57 < k)%N -> N.eqb (N_of_ascii c) k = false)
      by (intros k Hk; apply N.eqb_neq; lia).
    rewrite !E by lia. reflexivity. }
  cbn [trimStart]. rewrite H1.
  destruct r as [|a [|b r]]; [reflexivity| |].
  - rewrite H2. reflexivity.
  - rewrite H2, H3. reflexivity.
Qed.

Ltac eval_digit :=
  match goal with
  | |- context [digit_of ?c] =>
      let x := eval vm_compute in (digit_of c) in
      change (digit_of c) with x; cbv iota beta
  end.

Lemma digits_from_uint d d' :
  digits_from (Some (DecimalPos.Unsigned.of_lu d')) (NilEmpty.string_of_uint d)
  = Some (DecimalPos.Unsigned.of_lu (revapp d d')).
Proof.
  revert d'.
  induction d as [|d IH|d IH|d IH|d IH|d IH|d IH|d IH|d IH|d IH|d IH];
    intros d'; [reflexivity|..];
    cbn [NilEmpty.string_of_uint digits_from revapp];
    eval_digit; rewrite <- IH; do 2 f_equal; cbn [DecimalPos.Unsigned.of_lu]; lia.
Qed.

Lemma parseInt_string_of_uint d :
  d <> Nil ->
  parseInt (Some (EString (NilEmpty.string_of_uint d)))
  = double_of_integer false (N.of_uint d).
Proof.
  intros Hd. unfold N.of_uint. rewrite DecimalPos.Unsigned.of_uint_alt.
  unfold parseInt, ToString.
  destruct d; [congruence|..];
    cbn [NilEmpty.string_of_uint];
    rewrite trimStart_digit by (vm_compute; discriminate);
    cbn [digits_from]; eval_digit;
    match goal with
    | |- context [digits_from (Some ?k) _] =>
        match type of Hd with
        | ?D _ <> Nil => change (Some k) with (Some (DecimalPos.Unsigned.of_lu (D Nil)))
        end
    end;
    rewrite digits_from_uint; reflexivity.
Qed.

(** The numeral of [k] reads back as the double for [k]: as [k] itself
    up to 2^53. *)
Lemma parseInt_decimal_double k :
  parseInt (Some (EString (decimal k))) = double_of_integer false k.
Proof.
  unfold decimal.
  assert (Hnil : N.to_uint k <> Nil).
  { destruct k as [|p]; [discriminate|].
    apply DecimalPos.Unsigned.to_uint_nonnil. }
  replace (NilZero.string_of_uint (N.to_uint k))
    with (NilEmpty.string_of_uint (N.to_uint k))
    by (unfold NilZero.string_of_uint; destruct (N.to_uint k); congruence).
  rewrite (parseInt_string_of_uint _ Hnil).
  rewrite DecimalN.Unsigned.of_to. reflexivity.
Qed.

Lemma double_of_integer_exact negative k :
  (k <= 2 ^ 53)%N -> double_of_integer negative k = Finite negative k.
Proof.
  intros Hk. unfold double_of_integer.
  replace (k <=? 2 ^ 53)%N with true by (symmetry; apply N.leb_le; exact Hk).
  reflexivity.
Qed.

Lemma parseInt_decimal k :
  (k <= 2 ^ 53)%N ->
  parseInt (Some (EString (decimal k))) = Finite false k.
Proof.
  intros Hk. rewrite parseInt_decimal_double.
  apply double_of_integer_exact. exact Hk.
Qed.

(** ** Responses built by [json] *)

Lemma json_trace d st : trace (json d st) = [].
Proof.
  unfold json.
  destruct (_ || _); [reflexivity|].
  destruct (null_body_status _); reflexivity.
Qed.

Lemma json_200 d :
  json d None = ret {| response_status := 200; response_body := d |}.
Proof. reflexivity. Qed.

Lemma json_400 d :
  json d (Some (Finite false 400))
  = ret {| response_status := 400; response_body := d |}.
Proof. reflexivity. Qed.

Lemma json_500 d :
  json d (Some (Finite false 500))
  = ret {| response_status := 500; response_body := d |}.
Proof. reflexivity. Qed.

Lemma json_valid d c :
  valid_status c ->
  json d (Some (Finite false c))
  = ret {| response_status := c; response_body := d |}.
Proof.
  intros [[Hlo Hhi] (H204 & H205 & H304)].
  unfold json, ToUint16.
  rewrite N.mod_small by lia.
  replace (c <? 200)%N with false by (symmetry; apply N.ltb_ge; lia).
  replace (599 <? c)%N with false by (symmetry; apply N.ltb_ge; lia).
  cbn [orb].
  replace (null_body_status c) with false; [reflexivity|].
  symmetry. unfold null_body_status. cbn [existsb].
  repeat (apply orb_false_intro; [apply N.eqb_neq; lia|]).
  reflexivity.
Qed.

(** ** The runs of [action]

    One equation per path through the handler: the trace it leaves and how
    it completes. *)

Ltac run_async := cbv [bind emit await ret throw try_catch]; cbn [app].

Section Runs.

Variables (request : Request) (appContext : AppContext).

Lemma action_formData_rejected e :
  formData request = Rejected e ->
  action request appContext
  = ([console_log "Generate image action started"; console_log "Config:"],
     Throw e).
Proof. intros H. unfold action. rewrite H. reflexivity. Qed.

Lemma action_formData_pending :
  formData request = Pending ->
  action request appContext
  = ([console_log "Generate image action started"; console_log "Config:"],
     Never).
Proof. intros H. unfold action. rewrite H. reflexivity. Qed.

Section Parsed.

Variable fd : FormData.
Hypothesis Hfd : formData request = Fulfilled fd.

Lemma action_no_prompt :
  ToBoolean (of_form (FormData_get fd "prompt")) = false ->
  action request appContext
  = (preamble,
     Return {| response_status := 400;
               response_body := ErrorData "未找到提示词" |}).
Proof.
  intros Hp. unfold action. rewrite Hfd. run_async.
  rewrite Hp. reflexivity.
Qed.

Lemma action_invalid_model :
  ToBoolean (of_form (FormData_get fd "prompt")) = true ->
  ToBoolean (resolved_model appContext fd) = false ->
  action request appContext
  = (preamble,
     Return {| response_status := 400;
               response_body := ErrorData "无效的模型" |}).
Proof.
  intros Hp Hm. unfold resolved_model in Hm.
  unfold action. rewrite Hfd. run_async.
  rewrite Hp, Hm. reflexivity.
Qed.

(** Past both checks: the call is made and awaited. *)
Hypothesis Hv : validated appContext fd = true.

Ltac enter_try :=
  let Hp := fresh "Hp" in
  let Hm := fresh "Hm" in
  destruct (andb_prop _ _ Hv) as [Hp Hm];
  unfold generateImage_promise, generateImage_call, resolved_model,
    outbound_prompt in *;
  unfold action; rewrite Hfd; run_async;
  rewrite Hp, Hm; cbn [negb].

Lemma action_fulfilled R :
  generateImage_promise appContext fd = Fulfilled R ->
  action request appContext
  = ((preamble ++ [generateImage_call appContext fd;
                   console_log "Image generation successful"])%list,
     Return {| response_status := 200; response_body := ResultData R |}).
Proof. intros Hg. enter_try. rewrite Hg. reflexivity. Qed.

Lemma action_pending :
  generateImage_promise appContext fd = Pending ->
  action request appContext
  = ((preamble ++ [generateImage_call appContext fd])%list, Never).
Proof. intros Hg. enter_try. rewrite Hg. reflexivity. Qed.

Lemma action_rejected e :
  generateImage_promise appContext fd = Rejected e ->
  action request appContext
  = ((preamble ++ [generateImage_call appContext fd;
                   console_error "生成图片时出错:" e])%list,
     outcome (failure_response e)).
Proof.
  intros Hg. enter_try. rewrite Hg. cbv [throw].
  fold (failure_response e).
  assert (Hf : trace (failure_response e) = [])
    by (destruct e; apply json_trace).
  destruct (failure_response e) as [t c]. cbn in Hf. subst t. reflexivity.
Qed.

End Parsed.

End Runs.

(** ** What [action] calls *)

Lemma action_calls request appContext :
  generateImage_calls (trace (action request appContext))
  = match formData request with
    | Fulfilled fd =>
        if validated appContext fd
        then [ (outbound_prompt fd, resolved_model appContext fd,
                of_form (FormData_get fd "size"),
                parseInt (FormData_get fd "numSteps")) ]
        else []
    | _ => []
    end.
Proof.
  destruct (formData request) as [fd|e|] eqn:Hfd.
  - unfold validated.
    destruct (ToBoolean (of_form (FormData_get fd "prompt"))) eqn:Hp.
    + destruct (ToBoolean (resolved_model appContext fd)) eqn:Hm.
      * assert (Hv : validated appContext fd = true)
          by (unfold validated; rewrite Hp, Hm; reflexivity).
        destruct (generateImage_promise appContext fd) as [R|e|] eqn:Hg.
        -- rewrite (action_fulfilled _ _ _ Hfd Hv _ Hg). reflexivity.
        -- rewrite (action_rejected _ _ _ Hfd Hv _ Hg). reflexivity.
        -- rewrite (action_pending _ _ _ Hfd Hv Hg). reflexivity.
      * rewrite (action_invalid_model _ _ _ Hfd Hp Hm). reflexivity.
    + rewrite (action_no_prompt _ _ _ Hfd Hp). reflexivity.
  - rewrite (action_formData_rejected _ _ _ Hfd). reflexivity.
  - rewrite (action_formData_pending _ _ Hfd). reflexivity.
Qed.

Lemma In_generateImage_calls t p m s n :
  In (call_generateImage p m s n) t <-> In (p, m, s, n) (generateImage_calls t).
Proof.
  induction t as [|ev t IH]; [reflexivity|].
  destruct ev; cbn [generateImage_calls In]; rewrite <- IH;
    try (split; [intros [H|H]; [discriminate H|exact H] | intros H; right; exact H]).
  split; (intros [H|H]; [left; congruence | right; exact H]).
Qed.

(** A call of [generateImage] is made only for a form that passed both
    checks, and with the arguments computed from that form. *)
Lemma action_call_inv request appContext p m s n :
  In (call_generateImage p m s n) (trace (action request appContext)) ->
  exists fd,
    formData request = Fulfilled fd
    /\ validated appContext fd = true
    /\ p = outbound_prompt fd
    /\ m = resolved_model appContext fd
    /\ s = of_form (FormData_get fd "size")
    /\ n = parseInt (FormData_get fd "numSteps").
Proof.
  rewrite In_generateImage_calls, action_calls.
  destruct (formData request) as [fd|e|]; try (intros []).
  destruct (validated appContext fd) eqn:Hv; [|intros []].
  intros [H|[]]. injection H as <- <- <- <-.
  exists fd. repeat split; assumption.
Qed.

(** C1. For every submission that passes validation (a truthy prompt and a
    model id that resolves to a truthy value), [action] calls
    [generateImage] once, and the prompt it passes is the marker ["---tl "]
    followed by the original prompt when [enhance] is true (one copy of the
    marker, put in front), and the original prompt unchanged when [enhance]
    is false; for a text prompt [text] these are ["---tl " ++ text] and
    [text]. *)
Theorem C1_dispatched_prompt request appContext fd :
  formData request = Fulfilled fd ->
  ToBoolean (of_form (FormData_get fd "prompt")) = true ->
  ToBoolean (Get (CUSTOMER_MODEL_MAP (config appContext))
                 (ToString (FormData_get fd "model"))) = true ->
  let enhance := strict_eq_string (FormData_get fd "enhance") "true" in
  exists p m s n,
    generateImage_calls (trace (action request appContext)) = [(p, m, s, n)]
    /\ (enhance = true ->
        p = VString ("---tl " ++ ToString (FormData_get fd "prompt")))
    /\ (enhance = false -> p = of_form (FormData_get fd "prompt"))
    /\ (forall text, FormData_get fd "prompt" = Some (EString text) ->
        p = VString (if enhance then "---tl " ++ text else text)).
Proof.
  intros Hfd Hp Hm enhance.
  exists (outbound_prompt fd), (resolved_model appContext fd),
    (of_form (FormData_get fd "size")), (parseInt (FormData_get fd "numSteps")).
  split.
  - rewrite action_calls, Hfd. unfold validated, resolved_model.
    rewrite Hp, Hm. reflexivity.
  - unfold outbound_prompt. fold enhance.
    repeat split.
    + intros ->. reflexivity.
    + intros ->. reflexivity.
    + intros text ->. destruct enhance; reflexivity.
Qed.

Lemma C1_dispatched_prompt_witness :
  exists p m s n,
    generateImage_calls
      (trace (action (submission "a cat" "true" "FLUX.1-Schnell-CF"
                                 "1024x1024" "4")
                     (sample_context Pending Pending)))
    = [(p, m, s, n)]
    /\ p = VString "---tl a cat".
Proof.
  destruct (C1_dispatched_prompt
              (submission "a cat" "true" "FLUX.1-Schnell-CF" "1024x1024" "4")
              (sample_context Pending Pending)
              (submission_form "a cat" "true" "FLUX.1-Schnell-CF"
                               "1024x1024" "4")
              eq_refl eq_refl eq_refl)
    as (p & m & s & n & Hcalls & Htrue & _ & _).
  exists p, m, s, n. split; [exact Hcalls|]. apply Htrue. reflexivity.
Defined.

(** C2. For every submission whose prompt field is empty (absent, or the
    empty string), [action] answers 400 with the validation error and makes
    no call of [generateImage]. *)
Theorem C2_empty_prompt_rejected request appContext fd :
  formData request = Fulfilled fd ->
  FormData_get fd "prompt" = None
  \/ FormData_get fd "prompt" = Some (EString "") ->
  outcome (action request appContext)
  = Return {| response_status := 400;
              response_body := ErrorData "未找到提示词" |}
  /\ generateImage_calls (trace (action request appContext)) = [].
Proof.
  intros Hfd Hempty.
  assert (Hp : ToBoolean (of_form (FormData_get fd "prompt")) = false)
    by (destruct Hempty as [-> | ->]; reflexivity).
  rewrite (action_no_prompt _ _ _ Hfd Hp). split; reflexivity.
Qed.

Lemma C2_empty_prompt_rejected_witness :
  outcome (action (submission "" "false" "FLUX.1-Schnell-CF" "1024x1024" "4")
                  (sample_context Pending (Fulfilled sample_result)))
  = Return {| response_status := 400;
              response_body := ErrorData "未找到提示词" |}
  /\ generateImage_calls
       (trace (action (submission "" "false" "FLUX.1-Schnell-CF"
                                  "1024x1024" "4")
                      (sample_context Pending (Fulfilled sample_result))))
     = [].
Proof.
  apply (C2_empty_prompt_rejected
           (submission "" "false" "FLUX.1-Schnell-CF" "1024x1024" "4")
           (sample_context Pending (Fulfilled sample_result))
           (submission_form "" "false" "FLUX.1-Schnell-CF" "1024x1024" "4")
           eq_refl).
  right. reflexivity.
Defined.

(** ** The model check *)

(** A model id that is no own key of the catalog and no property of
    [Object.prototype] (or a catalog without prototype) is rejected. *)
Lemma action_unknown_model_rejected request appContext fd :
  formData request = Fulfilled fd ->
  ToBoolean (of_form (FormData_get fd "prompt")) = true ->
  own_property (own (CUSTOMER_MODEL_MAP (config appContext)))
               (ToString (FormData_get fd "model")) = None ->
  proto (CUSTOMER_MODEL_MAP (config appContext)) = NullPrototype
  \/ Object_prototype_get (ToString (FormData_get fd "model")) = VUndefined ->
  outcome (action request appContext)
  = Return {| response_status := 400;
              response_body := ErrorData "无效的模型" |}
  /\ generateImage_calls (trace (action request appContext)) = [].
Proof.
  intros Hfd Hp Hown Hproto.
  assert (Hm : ToBoolean (resolved_model appContext fd) = false).
  { unfold resolved_model, Get. rewrite Hown.
    destruct Hproto as [-> | Hundef]; [reflexivity|].
    destruct (proto _); [rewrite Hundef|]; reflexivity. }
  rewrite (action_invalid_model _ _ _ Hfd Hp Hm). split; reflexivity.
Qed.

(** A model id that names a property of [Object.prototype] passes the
    check on any catalog that inherits from it, whatever its own keys. *)
Lemma action_inherited_model_dispatched request appContext fd key :
  formData request = Fulfilled fd ->
  ToBoolean (of_form (FormData_get fd "prompt")) = true ->
  FormData_get fd "model" = Some (EString key) ->
  own_property (own (CUSTOMER_MODEL_MAP (config appContext))) key = None ->
  proto (CUSTOMER_MODEL_MAP (config appContext)) = ObjectPrototype ->
  In key ("__proto__" :: Object_prototype_methods) ->
  exists p m s n,
    generateImage_calls (trace (action request appContext)) = [(p, m, s, n)]
    /\ m = Object_prototype_get key.
Proof.
  intros Hfd Hp Hkey Hown Hproto Hin.
  assert (Hm : resolved_model appContext fd = Object_prototype_get key).
  { unfold resolved_model, Get. rewrite Hkey. cbn [ToString].
    rewrite Hown, Hproto. reflexivity. }
  assert (Ht : ToBoolean (Object_prototype_get key) = true).
  { cbn [In Object_prototype_methods] in Hin.
    repeat (destruct Hin as [<- | Hin]; [reflexivity|]). destruct Hin. }
  exists (outbound_prompt fd), (Object_prototype_get key),
    (of_form (FormData_get fd "size")), (parseInt (FormData_get fd "numSteps")).
  split; [|reflexivity].
  rewrite action_calls, Hfd. unfold validated. rewrite Hp, Hm, Ht. reflexivity.
Qed.

(** C3 (the code at the failing input).  The sample catalog has the one
    entry ["FLUX.1-Schnell-CF"]; a submission with model id ["toString"],
    which is no entry of it, is not rejected: the lookup finds the inherited
    [Object.prototype.toString], the check passes, [generateImage] is called
    with that function as the model, and the service's result is answered
    with status 200. *)
Theorem C3_inherited_key_passes_model_check :
  own_property (own sample_catalog) "toString" = None
  /\ ~ In "toString" (Object_keys sample_catalog)
  /\ generateImage_calls
       (trace (action (submission "a cat" "false" "toString" "1024x1024" "4")
                      (sample_context Pending (Fulfilled sample_result))))
     = [ (VString "a cat", VObject "Object.prototype.toString",
          VString "1024x1024", Finite false 4) ]
  /\ outcome (action (submission "a cat" "false" "toString" "1024x1024" "4")
                     (sample_context Pending (Fulfilled sample_result)))
     = Return {| response_status := 200;
                 response_body := ResultData sample_result |}.
Proof.
  split; [reflexivity|]. split.
  - cbn. intros [H|[]]. discriminate H.
  - split; reflexivity.
Qed.

(** ** Failures of the service *)

(** C4 (counterexample).  An [AppError] that carries no status code is not
    answered with the generic message: the answer is 500 with the error's
    own message.  And an [AppError] whose status code is 0 is answered with
    500, not with its code. *)
Lemma C4_counterexample :
  outcome
    (action (submission "a cat" "false" "FLUX.1-Schnell-CF" "1024x1024" "4")
            (sample_context Pending
               (Rejected (AppErrorInstance
                            {| message := "overloaded"; status := None |}))))
  = Return {| response_status := 500;
              response_body := ErrorData "生成图片失败: overloaded" |}
  /\ ErrorData "生成图片失败: overloaded" <> ErrorData "生成图片失败: 未知错误"
  /\ outcome
       (action (submission "a cat" "false" "FLUX.1-Schnell-CF" "1024x1024" "4")
               (sample_context Pending
                  (Rejected (AppErrorInstance
                               {| message := "overloaded";
                                  status := Some (Finite false 0) |}))))
     = Return {| response_status := 500;
                 response_body := ErrorData "生成图片失败: overloaded" |}.
Proof.
  split; [reflexivity|]. split; [discriminate|reflexivity].
Qed.

(** A status outside 200..599 is refused by the [Response] constructor:
    the [catch] clause itself throws and the handler gives no response. *)
Example action_status_out_of_range :
  outcome
    (action (submission "a cat" "false" "FLUX.1-Schnell-CF" "1024x1024" "4")
            (sample_context Pending
               (Rejected (AppErrorInstance
                            {| message := "overloaded";
                               status := Some (Finite false 99) |}))))
  = Throw (OtherError "RangeError").
Proof. reflexivity. Qed.

Lemma or_500_falsy st :
  st = None \/ st = Some NaN \/ (exists neg, st = Some (Finite neg 0)) ->
  or_500 st = Finite false 500.
Proof.
  intros [-> | [-> | [neg ->]]]; reflexivity.
Qed.

Lemma or_500_valid c :
  valid_status c -> or_500 (Some (Finite false c)) = Finite false c.
Proof.
  intros [[Hlo _] _]. unfold or_500. cbn [ToBoolean].
  replace (N.eqb c 0) with false by (symmetry; apply N.eqb_neq; lia).
  reflexivity.
Qed.

(** C4 (amended).  When the call of [generateImage] fails:
    - with an [AppError] whose status is a code the response can carry (an
      integer in 200..599 other than 204, 205, 304), the answer has that
      status and the error string ["生成图片失败: " ++ message];
    - with an [AppError] whose status is absent, [NaN] or zero, the answer
      has status 500 and the same error string with the error's message;
    - with anything that is not an [AppError], the answer has status 500
      and the generic message. *)
Theorem C4_failure_response request appContext p m s n e :
  In (call_generateImage p m s n) (trace (action request appContext)) ->
  generateImage (imageGenerationService appContext) p m s n = Rejected e ->
  match e with
  | AppErrorInstance a =>
      (forall c, status a = Some (Finite false c) -> valid_status c ->
         outcome (action request appContext)
         = Return {| response_status := c;
                     response_body :=
                       ErrorData ("生成图片失败: " ++ message a) |})
      /\ (status a = None \/ status a = Some NaN
          \/ (exists neg, status a = Some (Finite neg 0)) ->
          outcome (action request appContext)
          = Return {| response_status := 500;
                      response_body :=
                        ErrorData ("生成图片失败: " ++ message a) |})
  | OtherError _ =>
      outcome (action request appContext)
      = Return {| response_status := 500;
                  response_body := ErrorData "生成图片失败: 未知错误" |}
  end.
Proof.
  intros Hin Hrej.
  destruct (action_call_inv _ _ _ _ _ _ Hin)
    as (fd & Hfd & Hv & -> & -> & -> & ->).
  rewrite (action_rejected _ _ _ Hfd Hv _ Hrej). cbn [outcome snd].
  destruct e as [a | name].
  - split.
    + intros c Hst Hc. unfold failure_response.
      rewrite Hst, (or_500_valid _ Hc), (json_valid _ _ Hc). reflexivity.
    + intros Hst. unfold failure_response.
      rewrite (or_500_falsy _ Hst), json_500. reflexivity.
  - reflexivity.
Qed.

Lemma C4_failure_response_witness :
  outcome
    (action (submission "a cat" "false" "FLUX.1-Schnell-CF" "1024x1024" "4")
            (sample_context Pending
               (Rejected (AppErrorInstance
                            {| message := "overloaded";
                               status := Some (Finite false 503) |}))))
  = Return {| response_status := 503;
              response_body := ErrorData "生成图片失败: overloaded" |}.
Proof.
  refine (proj1
            (C4_failure_response
               (submission "a cat" "false" "FLUX.1-Schnell-CF" "1024x1024" "4")
               (sample_context Pending
                  (Rejected (AppErrorInstance
                               {| message := "overloaded";
                                  status := Some (Finite false 503) |})))
               (VString "a cat")
               (VString "@cf/black-forest-labs/flux-1-schnell")
               (VString "1024x1024") (Finite false 4)
               (AppErrorInstance
                  {| message := "overloaded";
                     status := Some (Finite false 503) |})
               _ eq_refl)
            503%N eq_refl _).
  - vm_compute. do 3 right. left. reflexivity.
  - unfold valid_status. lia.
Defined.

(** ** Success *)

(** C5. When the call of [generateImage] fulfils with a result [R], the
    handler answers with status 200 and a body that is [R] itself, so its
    [image], [prompt] and [translatedPrompt] are those of [R]. *)
Theorem C5_success_response request appContext p m s n R :
  In (call_generateImage p m s n) (trace (action request appContext)) ->
  generateImage (imageGenerationService appContext) p m s n = Fulfilled R ->
  exists r,
    outcome (action request appContext)
    = Return {| response_status := 200; response_body := ResultData r |}
    /\ image r = image R
    /\ prompt r = prompt R
    /\ translatedPrompt r = translatedPrompt R.
Proof.
  intros Hin Hful.
  destruct (action_call_inv _ _ _ _ _ _ Hin)
    as (fd & Hfd & Hv & -> & -> & -> & ->).
  rewrite (action_fulfilled _ _ _ Hfd Hv _ Hful).
  exists R. repeat split.
Qed.

Lemma C5_success_response_witness :
  exists r,
    outcome
      (action (submission "a cat" "true" "FLUX.1-Schnell-CF" "1024x1024" "4")
              (sample_context Pending (Fulfilled sample_result)))
    = Return {| response_status := 200; response_body := ResultData r |}
    /\ image r = "/9j/4AAQ"
    /\ prompt r = "a cat"
    /\ translatedPrompt r = "a cat".
Proof.
  refine (C5_success_response
            (submission "a cat" "true" "FLUX.1-Schnell-CF" "1024x1024" "4")
            (sample_context Pending (Fulfilled sample_result))
            (VString "---tl a cat")
            (VString "@cf/black-forest-labs/flux-1-schnell")
            (VString "1024x1024") (Finite false 4) sample_result _ eq_refl).
  vm_compute. do 3 right. left. reflexivity.
Defined.

(** ** The step count *)

(** C6 (counterexample).  A submission whose [numSteps] field is ["100"]
    passes both checks and is dispatched with [numSteps = 100], which is
    outside 4..8. *)
Lemma C6_counterexample :
  generateImage_calls
    (trace (action (submission "a cat" "false" "FLUX.1-Schnell-CF"
                               "1024x1024" "100")
                   (sample_context Pending Pending)))
  = [ (VString "a cat", VString "@cf/black-forest-labs/flux-1-schnell",
       VString "1024x1024", Finite false 100) ]
  /\ ~ integer_between 4 8 (Finite false 100).
Proof.
  split; [reflexivity|].
  intros (k & Hk & Hrange). injection Hk as <-. lia.
Qed.

(** C6 (amended).  For every submission dispatched to the service, the
    [numSteps] passed is [parseInt] of the form's [numSteps] field, read in
    base 10, with no range check by the handler: when the field is the
    decimal numeral of an integer [k] up to 2^53 the value passed is [k]
    (beyond, it is the double nearest to [k]), hence an integer in 4..8
    whenever the client sent one in that range. *)
Theorem C6_numSteps_passed request appContext p m s n :
  In (call_generateImage p m s n) (trace (action request appContext)) ->
  exists fd,
    formData request = Fulfilled fd
    /\ n = parseInt (FormData_get fd "numSteps")
    /\ forall k, FormData_get fd "numSteps" = Some (EString (decimal k)) ->
         n = double_of_integer false k
         /\ ((k <= 2 ^ 53)%N -> n = Finite false k)
         /\ ((4 <= k <= 8)%N -> integer_between 4 8 n).
Proof.
  intros Hin.
  destruct (action_call_inv _ _ _ _ _ _ Hin)
    as (fd & Hfd & _ & _ & _ & _ & ->).
  exists fd. split; [exact Hfd|]. split; [reflexivity|].
  intros k Hk. rewrite Hk. split; [apply parseInt_decimal_double|].
  split.
  - intros Hbound. apply parseInt_decimal. exact Hbound.
  - intros Hrange. exists k. split; [|lia].
    apply parseInt_decimal.
    apply N.le_trans with (m := 8%N); [lia|]. apply N.leb_le. reflexivity.
Qed.

Lemma C6_numSteps_passed_witness :
  exists fd,
    formData (submission "a cat" "false" "FLUX.1-Schnell-CF" "1024x1024" "6")
    = Fulfilled fd
    /\ Finite false 6 = parseInt (FormData_get fd "numSteps")
    /\ forall k, FormData_get fd "numSteps" = Some (EString (decimal k)) ->
         Finite false 6 = double_of_integer false k
         /\ ((k <= 2 ^ 53)%N -> Finite false 6 = Finite false k)
         /\ ((4 <= k <= 8)%N -> integer_between 4 8 (Finite false 6)).
Proof.
  refine (C6_numSteps_passed
            (submission "a cat" "false" "FLUX.1-Schnell-CF" "1024x1024" "6")
            (sample_context Pending Pending)
            (VString "a cat")
            (VString "@cf/black-forest-labs/flux-1-schnell")
            (VString "1024x1024") (Finite false 6) _).
  vm_compute. do 3 right. left. reflexivity.
Defined.

(** ** The connection probe *)

Lemma action_trace_cases request appContext :
  exists tail,
    trace (action request appContext)
    = ([console_log "Generate image action started"; console_log "Config:"]
       ++ tail)%list
    /\ forall ev, In ev tail ->
         match ev with
         | call_testCfAiConnection => False
         | _ => True
         end.
Proof.
  destruct (formData request) as [fd|e|] eqn:Hfd.
  - destruct (ToBoolean (of_form (FormData_get fd "prompt"))) eqn:Hp.
    + destruct (ToBoolean (resolved_model appContext fd)) eqn:Hm.
      * assert (Hv : validated appContext fd = true)
          by (unfold validated; rewrite Hp, Hm; reflexivity).
        destruct (generateImage_promise appContext fd) as [R|e|] eqn:Hg.
        -- rewrite (action_fulfilled _ _ _ Hfd Hv _ Hg).
           eexists. split; [reflexivity|].
           intros ev [<-|[<-|[<-|[]]]]; exact I.
        -- rewrite (action_rejected _ _ _ Hfd Hv _ Hg).
           eexists. split; [reflexivity|].
           intros ev [<-|[<-|[<-|[]]]]; exact I.
        -- rewrite (action_pending _ _ _ Hfd Hv Hg).
           eexists. split; [reflexivity|].
           intros ev [<-|[<-|[]]]; exact I.
      * rewrite (action_invalid_model _ _ _ Hfd Hp Hm).
        eexists. split; [reflexivity|]. intros ev [<-|[]]; exact I.
    + rewrite (action_no_prompt _ _ _ Hfd Hp).
      eexists. split; [reflexivity|]. intros ev [<-|[]]; exact I.
  - rewrite (action_formData_rejected _ _ _ Hfd).
    exists []. split; [reflexivity|]. intros ev [].
  - rewrite (action_formData_pending _ _ Hfd).
    exists []. split; [reflexivity|]. intros ev [].
Qed.

Lemma action_never_probes request appContext :
  ~ In call_testCfAiConnection (trace (action request appContext)).
Proof.
  destruct (action_trace_cases request appContext) as (tail & -> & Htail).
  intros [H|[H|H]]; try discriminate H.
  exact (Htail _ H).
Qed.

(** C7 (counterexample).  A generation request is served without any
    probe: the run of [action] on it contains no call of
    [testCfAiConnection], whatever the probe would have answered. *)
Lemma C7_counterexample :
  trace (action (submission "a cat" "false" "FLUX.1-Schnell-CF"
                            "1024x1024" "4")
                (sample_context (Rejected (OtherError "Error"))
                                (Fulfilled sample_result)))
  = [ console_log "Generate image action started";
      console_log "Config:";
      console_log "Form data:";
      call_generateImage (VString "a cat")
        (VString "@cf/black-forest-labs/flux-1-schnell")
        (VString "1024x1024") (Finite false 4);
      console_log "Image generation successful" ]
  /\ ~ In call_testCfAiConnection
       (trace (action (submission "a cat" "false" "FLUX.1-Schnell-CF"
                                  "1024x1024" "4")
                      (sample_context (Rejected (OtherError "Error"))
                                      (Fulfilled sample_result)))).
Proof.
  split; [reflexivity|]. apply action_never_probes.
Qed.

(** C7 (amended).  Before serving any page request the route's [loader]
    probes the backend ([testCfAiConnection]) and logs the outcome, and a
    probe failure never fails the request: whether the probe succeeds or
    fails, the loader answers 200 with the model list and the
    configuration.  The generation request handler itself makes no
    probe. *)
Theorem C7_loader_probe_is_advisory appContext :
  testCfAiConnection (imageGenerationService appContext) <> Pending ->
  exists logged,
    trace (loader appContext) = [call_testCfAiConnection; logged]
    /\ match testCfAiConnection (imageGenerationService appContext) with
       | Fulfilled _ =>
           logged = console_log "Cloudflare AI connection test successful"
       | Rejected e =>
           logged = console_error "Cloudflare AI connection test failed:" e
       | Pending => False
       end
    /\ outcome (loader appContext)
       = Return
           {| response_status := 200;
              response_body :=
                LoaderData
                  (map (fun id =>
                          (id, Get (CUSTOMER_MODEL_MAP (config appContext)) id))
                       (Object_keys (CUSTOMER_MODEL_MAP (config appContext))))
                  (config appContext) |}
    /\ forall request,
         ~ In call_testCfAiConnection (trace (action request appContext)).
Proof.
  intros Hsettled. unfold loader.
  destruct (testCfAiConnection (imageGenerationService appContext))
    as [[]|e|]; [| |congruence].
  - eexists. split; [reflexivity|]. split; [reflexivity|].
    split; [reflexivity|]. intros request. apply action_never_probes.
  - eexists. split; [reflexivity|]. split; [reflexivity|].
    split; [reflexivity|]. intros request. apply action_never_probes.
Qed.

Lemma C7_loader_probe_is_advisory_witness :
  exists logged,
    trace (loader (sample_context (Rejected (OtherError "Error")) Pending))
    = [call_testCfAiConnection; logged]
    /\ logged = console_error "Cloudflare AI connection test failed:"
                              (OtherError "Error")
    /\ outcome (loader (sample_context (Rejected (OtherError "Error")) Pending))
       = Return
           {| response_status := 200;
              response_body :=
                LoaderData
                  [("FLUX.1-Schnell-CF",
                    VString "@cf/black-forest-labs/flux-1-schnell")]
                  (config (sample_context (Rejected (OtherError "Error"))
                                          Pending)) |}
    /\ forall request,
         ~ In call_testCfAiConnection
              (trace (action request
                        (sample_context (Rejected (OtherError "Error"))
                                        Pending))).
Proof.
  refine (C7_loader_probe_is_advisory
            (sample_context (Rejected (OtherError "Error")) Pending) _).
  discriminate.
Defined.

(** ** One call per dispatched request *)

(** C9 (counterexample).  An invocation with an empty prompt answers 400
    and performs no call of [generateImage] at all. *)
Lemma C9_counterexample :
  outcome (action (submission "" "false" "FLUX.1-Schnell-CF" "1024x1024" "4")
                  (sample_context Pending (Fulfilled sample_result)))
  = Return {| response_status := 400;
              response_body := ErrorData "未找到提示词" |}
  /\ length (generateImage_calls
               (trace (action (submission "" "false" "FLUX.1-Schnell-CF"
                                          "1024x1024" "4")
                              (sample_context Pending
                                              (Fulfilled sample_result)))))
     = 0
  /\ 0 <> 1.
Proof.
  split; [reflexivity|]. split; [reflexivity|]. discriminate.
Qed.

(** C9 (amended).  Every invocation of the handler performs at most one
    call of [generateImage]: exactly one when the form passes both checks,
    none when a check rejects it.  The handler awaits the call before it
    answers: while the call is pending there is no response, and once it
    settles the response is the one built from its result or its error. *)
Theorem C9_single_awaited_call request appContext :
  length (generateImage_calls (trace (action request appContext))) <= 1
  /\ (forall fd,
        formData request = Fulfilled fd ->
        length (generateImage_calls (trace (action request appContext)))
        = if ToBoolean (of_form (FormData_get fd "prompt"))
             && ToBoolean (Get (CUSTOMER_MODEL_MAP (config appContext))
                               (ToString (FormData_get fd "model")))
          then 1 else 0)
  /\ (forall p m s n,
        In (call_generateImage p m s n) (trace (action request appContext)) ->
        match generateImage (imageGenerationService appContext) p m s n with
        | Pending => outcome (action request appContext) = Never
        | Fulfilled R =>
            outcome (action request appContext)
            = Return {| response_status := 200;
                        response_body := ResultData R |}
        | Rejected e =>
            outcome (action request appContext)
            = outcome (failure_response e)
        end).
Proof.
  split; [|split].
  - rewrite action_calls.
    destruct (formData request) as [fd|e|]; cbn; try lia.
    destruct (validated appContext fd); cbn; lia.
  - intros fd Hfd. rewrite action_calls, Hfd.
    change (ToBoolean (of_form (FormData_get fd "prompt"))
            && ToBoolean (Get (CUSTOMER_MODEL_MAP (config appContext))
                              (ToString (FormData_get fd "model"))))
      with (validated appContext fd).
    destruct (validated appContext fd); reflexivity.
  - intros p m s n Hin.
    destruct (action_call_inv _ _ _ _ _ _ Hin)
      as (fd & Hfd & Hv & -> & -> & -> & ->).
    fold (generateImage_promise appContext fd).
    destruct (generateImage_promise appContext fd) as [R|e|] eqn:Hg.
    + rewrite (action_fulfilled _ _ _ Hfd Hv _ Hg). reflexivity.
    + rewrite (action_rejected _ _ _ Hfd Hv _ Hg). reflexivity.
    + rewrite (action_pending _ _ _ Hfd Hv Hg). reflexivity.
Qed.

(** ** The enhancement flag *)

Lemma strict_eq_string_true e lit :
  strict_eq_string e lit = true <-> e = Some (EString lit).
Proof.
  destruct e as [[s|f]|]; cbn; try (split; [discriminate|congruence]).
  rewrite String.eqb_eq. split; congruence.
Qed.

(** C10. The handler takes the enhancement flag as true exactly when the
    form's [enhance] field is the string ["true"]: then the prompt it
    dispatches is the marker followed by the prompt; for any other value of
    the field, and when the field is absent, the prompt is dispatched as it
    is, with no marker put in front. *)
Theorem C10_enhance_field request appContext p m s n :
  In (call_generateImage p m s n) (trace (action request appContext)) ->
  exists fd,
    formData request = Fulfilled fd
    /\ (strict_eq_string (FormData_get fd "enhance") "true" = true
        <-> FormData_get fd "enhance" = Some (EString "true"))
    /\ (FormData_get fd "enhance" = Some (EString "true") ->
        p = VString ("---tl " ++ ToString (FormData_get fd "prompt")))
    /\ (FormData_get fd "enhance" <> Some (EString "true") ->
        p = of_form (FormData_get fd "prompt")).
Proof.
  intros Hin.
  destruct (action_call_inv _ _ _ _ _ _ Hin)
    as (fd & Hfd & _ & -> & _ & _ & _).
  exists fd. split; [exact Hfd|]. split; [apply strict_eq_string_true|].
  unfold outbound_prompt. split.
  - intros Htrue. apply strict_eq_string_true in Htrue. rewrite Htrue.
    reflexivity.
  - intros Hother.
    destruct (strict_eq_string (FormData_get fd "enhance") "true") eqn:Hs;
      [|reflexivity].
    apply strict_eq_string_true in Hs. contradiction.
Qed.

Lemma C10_enhance_field_witness :
  exists fd,
    formData {| formData := Fulfilled [ ("prompt", EString "a cat");
                                        ("enhance", EString "TRUE");
                                        ("model", EString "FLUX.1-Schnell-CF") ] |}
    = Fulfilled fd
    /\ (strict_eq_string (FormData_get fd "enhance") "true" = true
        <-> FormData_get fd "enhance" = Some (EString "true"))
    /\ (FormData_get fd "enhance" = Some (EString "true") ->
        VString "a cat"
        = VString ("---tl " ++ ToString (FormData_get fd "prompt")))
    /\ (FormData_get fd "enhance" <> Some (EString "true") ->
        VString "a cat" = of_form (FormData_get fd "prompt")).
Proof.
  refine (C10_enhance_field
            {| formData := Fulfilled [ ("prompt", EString "a cat");
                                       ("enhance", EString "TRUE");
                                       ("model", EString "FLUX.1-Schnell-CF") ] |}
            (sample_context Pending Pending)
            (VString "a cat")
            (VString "@cf/black-forest-labs/flux-1-schnell")
            VNull NaN _).
  vm_compute. do 3 right. left. reflexivity.
Defined.

(** ** The submit guard *)

Lemma handleSubmit_prevents e :
  defaultPrevented (handleSubmit true e) = true.
Proof. reflexivity. Qed.

Lemma handleSubmit_passes e :
  handleSubmit false e = e.
Proof. reflexivity. Qed.

Lemma Form_onSubmit_rendered_submitting c :
  rendered c = submitting -> Form_onSubmit c = c.
Proof. intros H. unfold Form_onSubmit. rewrite H. reflexivity. Qed.

Lemma session_invariant_router c c' :
  session_invariant c -> router_step c c' -> session_invariant c'.
Proof.
  intros Hinv Hstep. unfold session_invariant in *.
  destruct Hstep as [c | c next Hsub Hnext | c Hload | c Hmore]; cbn.
  - exact Hinv.
  - rewrite Hsub in Hinv. rewrite Hinv.
    destruct next; [reflexivity|reflexivity|congruence].
  - rewrite Hload in Hinv. exact Hinv.
  - destruct (navigation_state c); cbn in Hmore; lia.
Qed.

Lemma session_invariant_submit c :
  session_invariant c -> rendered c = navigation_state c ->
  session_invariant (Form_onSubmit c).
Proof.
  intros Hinv Hsync. unfold Form_onSubmit, session_invariant in *.
  rewrite Hsync. destruct (navigation_state c) eqn:Hnav; cbn.
  - rewrite Hinv. reflexivity.
  - rewrite Hinv. reflexivity.
  - rewrite Hnav. exact Hinv.
Qed.

Lemma reachable_rendered_invariant c :
  reachable_rendered c -> session_invariant c.
Proof.
  induction 1 as [|c _ IH Hsync|c c' _ IH Hstep]; [reflexivity| |].
  - exact (session_invariant_submit _ IH Hsync).
  - exact (session_invariant_router _ _ IH Hstep).
Qed.

(** C8 (counterexample).  Two submit events before the component renders
    again: the second still sees the [isSubmitting] of the first render,
    passes the guard, and a second request is dispatched while the first is
    in flight. *)
Lemma C8_counterexample :
  reachable (Form_onSubmit (Form_onSubmit initial_session))
  /\ in_flight (Form_onSubmit initial_session) = 1
  /\ in_flight (Form_onSubmit (Form_onSubmit initial_session)) = 2
  /\ dispatched (Form_onSubmit (Form_onSubmit initial_session)) = 2.
Proof.
  split; [|repeat split].
  apply (reachable_step (Form_onSubmit initial_session)); [|apply step_submit].
  apply (reachable_step initial_session); [apply reachable_initial|].
  apply step_submit.
Qed.

(** C8 (amended).  Once the component has rendered the [submitting]
    navigation, a submit event is a no-op: [handleSubmit] prevents the
    default, the session is unchanged and nothing is dispatched.  In the
    sessions where every submit event finds the component rendered from
    the current navigation, at most one submission is ever in flight;
    there, with the view up to date, a submit event while one is in flight
    is such a no-op, and with none in flight it dispatches one request. *)
Theorem C8_submission_guard c :
  reachable_rendered c ->
  (rendered c = submitting ->
   Form_onSubmit c = c /\ dispatched (Form_onSubmit c) = dispatched c)
  /\ in_flight c <= 1
  /\ (rendered c = navigation_state c ->
      in_flight c = 1 ->
      Form_onSubmit c = c /\ dispatched (Form_onSubmit c) = dispatched c)
  /\ (rendered c = navigation_state c ->
      in_flight c = 0 ->
      in_flight (Form_onSubmit c) = 1
      /\ dispatched (Form_onSubmit c) = S (dispatched c)).
Proof.
  intros Hreach. pose proof (reachable_rendered_invariant _ Hreach) as Hinv.
  unfold session_invariant in Hinv.
  split.
  - intros Hsub. rewrite (Form_onSubmit_rendered_submitting _ Hsub).
    split; reflexivity.
  - split; [destruct (navigation_state c); lia|].
    split; intros Hsync Hflight; unfold Form_onSubmit; rewrite Hsync;
      destruct (navigation_state c) eqn:Hnav; cbn;
      rewrite Hinv in Hflight; try discriminate Hflight;
      try rewrite Hinv; split; reflexivity.
Qed.

Lemma C8_submission_guard_witness :
  (rendered (render (Form_onSubmit initial_session)) = submitting ->
   Form_onSubmit (render (Form_onSubmit initial_session))
   = render (Form_onSubmit initial_session)
   /\ dispatched (Form_onSubmit (render (Form_onSubmit initial_session)))
      = dispatched (render (Form_onSubmit initial_session)))
  /\ in_flight (render (Form_onSubmit initial_session)) <= 1
  /\ (rendered (render (Form_onSubmit initial_session))
      = navigation_state (render (Form_onSubmit initial_session)) ->
      in_flight (render (Form_onSubmit initial_session)) = 1 ->
      Form_onSubmit (render (Form_onSubmit initial_session))
      = render (Form_onSubmit initial_session)
      /\ dispatched (Form_onSubmit (render (Form_onSubmit initial_session)))
         = dispatched (render (Form_onSubmit initial_session)))
  /\ (rendered (render (Form_onSubmit initial_session))
      = navigation_state (render (Form_onSubmit initial_session)) ->
      in_flight (render (Form_onSubmit initial_session)) = 0 ->
      in_flight (Form_onSubmit (render (Form_onSubmit initial_session))) = 1
      /\ dispatched (Form_onSubmit (render (Form_onSubmit initial_session)))
         = S (dispatched (render (Form_onSubmit initial_session)))).
Proof.
  apply (C8_submission_guard (render (Form_onSubmit initial_session))).
  apply (rendered_router (Form_onSubmit initial_session));
    [|apply step_render].
  apply (rendered_submit initial_session); [apply rendered_initial|].
  reflexivity.
Defined.

(** * Further properties of the route *)

(** ** Every run of [action] follows one of its paths *)

Lemma action_Run request appContext :
  Run request appContext (action request appContext).
Proof.
  destruct (formData request) as [fd|e|] eqn:Hfd.
  - destruct (ToBoolean (of_form (FormData_get fd "prompt"))) eqn:Hp.
    + destruct (ToBoolean (resolved_model appContext fd)) eqn:Hm.
      * assert (Hv : validated appContext fd = true)
          by (unfold validated; rewrite Hp, Hm; reflexivity).
        destruct (generateImage_promise appContext fd) as [R|e|] eqn:Hg.
        -- rewrite (action_fulfilled _ _ _ Hfd Hv _ Hg).
           now apply Run_fulfilled.
        -- rewrite (action_rejected _ _ _ Hfd Hv _ Hg).
           now apply Run_rejected.
        -- rewrite (action_pending _ _ _ Hfd Hv Hg).
           now apply Run_pending.
      * rewrite (action_invalid_model _ _ _ Hfd Hp Hm).
        now apply Run_invalid_model with (fd := fd).
    + rewrite (action_no_prompt _ _ _ Hfd Hp).
      now apply Run_no_prompt with (fd := fd).
  - rewrite (action_formData_rejected _ _ _ Hfd).
    now apply Run_formData_rejected.
  - rewrite (action_formData_pending _ _ Hfd).
    now apply Run_formData_pending.
Qed.

Lemma json_outcome d st :
  let s := match st with None => 200%N | Some n => ToUint16 n end in
  (valid_status s
   /\ outcome (json d st)
      = Return {| response_status := s; response_body := d |})
  \/ (~ valid_status s
      /\ (outcome (json d st) = Throw (OtherError "RangeError")
          \/ outcome (json d st) = Throw (OtherError "TypeError"))).
Proof.
  cbv zeta. unfold json.
  set (s := match st with None => 200%N | Some n => ToUint16 n end).
  destruct ((s <? 200)%N || (599 <? s)%N) eqn:Hrange.
  - right. split; [|left; reflexivity].
    intros [[Hlo Hhi] _]. apply orb_true_iff in Hrange.
    destruct Hrange as [H|H]; apply N.ltb_lt in H; lia.
  - apply orb_false_iff in Hrange. destruct Hrange as [Hlo Hhi].
    apply N.ltb_ge in Hlo, Hhi.
    destruct (null_body_status s) eqn:Hnull.
    + right. split; [|right; reflexivity].
      intros (_ & H204 & H205 & H304).
      unfold null_body_status in Hnull. cbn [existsb] in Hnull.
      repeat (apply orb_true_iff in Hnull; destruct Hnull as [Hnull|Hnull];
              [apply N.eqb_eq in Hnull; lia|]).
      discriminate Hnull.
    + left. split; [|reflexivity].
      unfold null_body_status in Hnull. cbn [existsb] in Hnull.
      repeat (apply orb_false_iff in Hnull; destruct Hnull as [?H Hnull]).
      repeat match goal with
             | H : N.eqb _ _ = false |- _ => apply N.eqb_neq in H
             end.
      unfold valid_status. repeat split; lia.
Qed.

Lemma failure_response_json error :
  failure_response error
  = json (ErrorData (failure_message error)) (Some (failure_status error)).
Proof. destruct error; reflexivity. Qed.

Lemma failure_message_truthy error :
  ToBoolean (VString (failure_message error)) = true.
Proof. destruct error; reflexivity. Qed.

(** ** The request body *)

(** X1. When [request.formData()] rejects, [action] rejects with the same
    error: it gives no response, makes no call of [generateImage], and has
    logged only its two opening lines. *)
Theorem X1_formData_rejection_propagates request appContext e :
  formData request = Rejected e ->
  outcome (action request appContext) = Throw e
  /\ generateImage_calls (trace (action request appContext)) = []
  /\ trace (action request appContext)
     = [console_log "Generate image action started"; console_log "Config:"].
Proof.
  intros Hfd. rewrite (action_formData_rejected _ _ _ Hfd). repeat split.
Qed.

Lemma X1_formData_rejection_propagates_witness :
  outcome (action {| formData := Rejected (OtherError "TypeError") |}
                  (sample_context Pending (Fulfilled sample_result)))
  = Throw (OtherError "TypeError")
  /\ generateImage_calls
       (trace (action {| formData := Rejected (OtherError "TypeError") |}
                      (sample_context Pending (Fulfilled sample_result))))
     = []
  /\ trace (action {| formData := Rejected (OtherError "TypeError") |}
                   (sample_context Pending (Fulfilled sample_result)))
     = [console_log "Generate image action started"; console_log "Config:"].
Proof.
  exact (X1_formData_rejection_propagates
           {| formData := Rejected (OtherError "TypeError") |}
           (sample_context Pending (Fulfilled sample_result))
           (OtherError "TypeError") eq_refl).
Defined.

(** ** The catalog lookup *)

Lemma own_property_In props key v :
  own_property props key = Some v -> In (key, v) props.
Proof.
  induction props as [|[k w] rest IH]; [discriminate|].
  cbn [own_property]. destruct (String.eqb k key) eqn:Hk.
  - apply String.eqb_eq in Hk. intros [= <-]. left. congruence.
  - intros H. right. exact (IH H).
Qed.

Lemma own_property_None props key :
  own_property props key = None <-> ~ In key (map fst props).
Proof.
  induction props as [|[k w] rest IH]; [cbn; tauto|].
  cbn [own_property map fst In]. destruct (String.eqb k key) eqn:Hk.
  - apply String.eqb_eq in Hk. split; [discriminate|]. intros H.
    destruct H. left. exact Hk.
  - apply String.eqb_neq in Hk. rewrite IH. tauto.
Qed.

Lemma own_property_NoDup props key v :
  NoDup (map fst props) -> In (key, v) props ->
  own_property props key = Some v.
Proof.
  induction props as [|[k w] rest IH]; [intros _ []|].
  cbn [map fst]. intros Hnd Hin. inversion Hnd as [|? ? Hnotin Hnd']; subst.
  cbn [own_property]. destruct Hin as [[= -> ->]|Hin].
  - rewrite String.eqb_refl. reflexivity.
  - destruct (String.eqb k key) eqn:Hk.
    + apply String.eqb_eq in Hk. subst k. destruct Hnotin.
      apply (in_map fst) in Hin. exact Hin.
    + exact (IH Hnd' Hin).
Qed.

Lemma Object_prototype_get_truthy key :
  ToBoolean (Object_prototype_get key) = inherited_key key.
Proof.
  unfold Object_prototype_get, inherited_key. cbn [existsb].
  destruct (String.eqb key "__proto__"); [reflexivity|].
  cbn [orb].
  destruct (existsb (String.eqb key) Object_prototype_methods); reflexivity.
Qed.

(** X2. On a catalog whose own values are all truthy, a submission with a
    non-empty prompt and the text [key] as its model id is dispatched to
    [generateImage] exactly when [key] is an own key of the catalog, or the
    catalog inherits from [Object.prototype] and [key] names one of its
    properties; otherwise it is answered 400 with the invalid-model error. *)
Theorem X2_model_acceptance request appContext fd key :
  formData request = Fulfilled fd ->
  ToBoolean (of_form (FormData_get fd "prompt")) = true ->
  FormData_get fd "model" = Some (EString key) ->
  truthy_values (CUSTOMER_MODEL_MAP (config appContext)) ->
  let accepted :=
    In key (Object_keys (CUSTOMER_MODEL_MAP (config appContext)))
    \/ (proto (CUSTOMER_MODEL_MAP (config appContext)) = ObjectPrototype
        /\ inherited_key key = true) in
  (accepted ->
   length (generateImage_calls (trace (action request appContext))) = 1)
  /\ (~ accepted ->
      action request appContext
      = (preamble,
         Return {| response_status := 400;
                   response_body := ErrorData "无效的模型" |})).
Proof.
  intros Hfd Hp Hkey Htruthy accepted.
  assert (Hm : resolved_model appContext fd
               = Get (CUSTOMER_MODEL_MAP (config appContext)) key)
    by (unfold resolved_model; rewrite Hkey; reflexivity).
  assert (Hiff : ToBoolean (resolved_model appContext fd) = true <-> accepted).
  { rewrite Hm. unfold accepted, Get, Object_keys.
    destruct (own_property (own (CUSTOMER_MODEL_MAP (config appContext))) key)
      as [v|] eqn:Hown.
    - apply own_property_In in Hown. split.
      + intros _. left. apply (in_map fst) in Hown. exact Hown.
      + intros _. exact (Htruthy _ _ Hown).
    - apply own_property_None in Hown.
      destruct (proto (CUSTOMER_MODEL_MAP (config appContext))).
      + rewrite Object_prototype_get_truthy. tauto.
      + cbn. split; [discriminate|].
        intros [H|[H _]]; [contradiction|discriminate]. }
  split.
  - intros Hacc. apply Hiff in Hacc.
    rewrite action_calls, Hfd. unfold validated. rewrite Hp, Hacc. reflexivity.
  - intros Hrej.
    apply (action_invalid_model _ _ _ Hfd Hp).
    destruct (ToBoolean (resolved_model appContext fd)); [|reflexivity].
    destruct Hrej. apply Hiff. reflexivity.
Qed.

Lemma X2_model_acceptance_witness :
  (In "constructor" (Object_keys sample_catalog)
   \/ (proto sample_catalog = ObjectPrototype
       /\ inherited_key "constructor" = true) ->
   length (generateImage_calls
             (trace (action (submission "a cat" "false" "constructor"
                                        "1024x1024" "4")
                            (sample_context Pending Pending)))) = 1)
  /\ (~ (In "constructor" (Object_keys sample_catalog)
         \/ (proto sample_catalog = ObjectPrototype
             /\ inherited_key "constructor" = true)) ->
      action (submission "a cat" "false" "constructor" "1024x1024" "4")
             (sample_context Pending Pending)
      = (preamble,
         Return {| response_status := 400;
                   response_body := ErrorData "无效的模型" |})).
Proof.
  refine (X2_model_acceptance
            (submission "a cat" "false" "constructor" "1024x1024" "4")
            (sample_context Pending Pending)
            (submission_form "a cat" "false" "constructor" "1024x1024" "4")
            "constructor" eq_refl eq_refl eq_refl _).
  intros k v [[= <- <-]|[]]. reflexivity.
Defined.

(** ** The loader *)

Lemma loader_fulfilled appContext u :
  testCfAiConnection (imageGenerationService appContext) = Fulfilled u ->
  loader appContext
  = ([call_testCfAiConnection;
      console_log "Cloudflare AI connection test successful"],
     Return {| response_status := 200;
               response_body :=
                 LoaderData (listed_models (CUSTOMER_MODEL_MAP (config appContext)))
                            (config appContext) |}).
Proof. intros H. unfold loader. rewrite H. reflexivity. Qed.

Lemma loader_rejected appContext e :
  testCfAiConnection (imageGenerationService appContext) = Rejected e ->
  loader appContext
  = ([call_testCfAiConnection;
      console_error "Cloudflare AI connection test failed:" e],
     Return {| response_status := 200;
               response_body :=
                 LoaderData (listed_models (CUSTOMER_MODEL_MAP (config appContext)))
                            (config appContext) |}).
Proof. intros H. unfold loader. rewrite H. reflexivity. Qed.

Lemma loader_pending appContext :
  testCfAiConnection (imageGenerationService appContext) = Pending ->
  loader appContext = ([call_testCfAiConnection], Never).
Proof. intros H. unfold loader. rewrite H. reflexivity. Qed.

Lemma loader_Return appContext resp :
  outcome (loader appContext) = Return resp ->
  resp = {| response_status := 200;
            response_body :=
              LoaderData (listed_models (CUSTOMER_MODEL_MAP (config appContext)))
                         (config appContext) |}.
Proof.
  destruct (testCfAiConnection (imageGenerationService appContext))
    as [u|e|] eqn:Hprobe.
  - rewrite (loader_fulfilled _ _ Hprobe). cbn. congruence.
  - rewrite (loader_rejected _ _ Hprobe). cbn. congruence.
  - rewrite (loader_pending _ Hprobe). discriminate.
Qed.

Lemma listed_models_In o id v :
  In (id, v) (listed_models o) -> In id (Object_keys o) /\ v = Get o id.
Proof.
  unfold listed_models. rewrite in_map_iff.
  intros (k & [= <- <-] & Hk). split; [exact Hk|reflexivity].
Qed.

(** X3. A model that [loader] lists is dispatched by [action] with the very
    value listed for it when that value is truthy, and is answered 400 as
    an invalid model when the value is falsy (an empty string, say),
    although the catalog has it. *)
Theorem X3_listed_model request appContext fd resp models cfg id v :
  outcome (loader appContext) = Return resp ->
  response_body resp = LoaderData models cfg ->
  In (id, v) models ->
  formData request = Fulfilled fd ->
  ToBoolean (of_form (FormData_get fd "prompt")) = true ->
  FormData_get fd "model" = Some (EString id) ->
  if ToBoolean v
  then exists p s n,
         generateImage_calls (trace (action request appContext))
         = [(p, v, s, n)]
  else action request appContext
       = (preamble,
          Return {| response_status := 400;
                    response_body := ErrorData "无效的模型" |}).
Proof.
  intros Hload Hbody Hin Hfd Hp Hmodel.
  apply loader_Return in Hload. subst resp. cbn in Hbody.
  injection Hbody as <- <-.
  apply listed_models_In in Hin. destruct Hin as [_ ->].
  assert (Hm : resolved_model appContext fd
               = Get (CUSTOMER_MODEL_MAP (config appContext)) id)
    by (unfold resolved_model; rewrite Hmodel; reflexivity).
  destruct (ToBoolean (Get (CUSTOMER_MODEL_MAP (config appContext)) id))
    eqn:Hv.
  - exists (outbound_prompt fd), (of_form (FormData_get fd "size")),
      (parseInt (FormData_get fd "numSteps")).
    rewrite action_calls, Hfd. unfold validated. rewrite Hp, Hm, Hv.
    reflexivity.
  - apply (action_invalid_model _ _ _ Hfd Hp). rewrite Hm. exact Hv.
Qed.

Lemma X3_listed_model_witness :
  exists p s n,
    generateImage_calls
      (trace (action (submission "a cat" "false" "FLUX.1-Schnell-CF"
                                 "1024x1024" "4")
                     (sample_context (Fulfilled tt) Pending)))
    = [(p, VString "@cf/black-forest-labs/flux-1-schnell", s, n)].
Proof.
  refine (X3_listed_model
            (submission "a cat" "false" "FLUX.1-Schnell-CF" "1024x1024" "4")
            (sample_context (Fulfilled tt) Pending)
            (submission_form "a cat" "false" "FLUX.1-Schnell-CF"
                             "1024x1024" "4")
            {| response_status := 200;
               response_body :=
                 LoaderData (listed_models sample_catalog)
                            (config (sample_context (Fulfilled tt) Pending)) |}
            (listed_models sample_catalog)
            (config (sample_context (Fulfilled tt) Pending))
            "FLUX.1-Schnell-CF"
            (VString "@cf/black-forest-labs/flux-1-schnell")
            eq_refl eq_refl _ eq_refl eq_refl eq_refl).
  left. reflexivity.
Defined.

(** X4. When the catalog's own keys are distinct, the model list that
    [loader] answers with is the catalog's own entries, each id with its
    own value, in property order. *)
Theorem X4_loader_lists_own_entries appContext resp :
  NoDup (Object_keys (CUSTOMER_MODEL_MAP (config appContext))) ->
  outcome (loader appContext) = Return resp ->
  response_body resp
  = LoaderData (own (CUSTOMER_MODEL_MAP (config appContext)))
               (config appContext).
Proof.
  intros Hnd Hload. apply loader_Return in Hload. subst resp. cbn.
  f_equal. unfold listed_models, Object_keys. rewrite map_map.
  rewrite <- (map_id (own (CUSTOMER_MODEL_MAP (config appContext)))) at 2.
  apply map_ext_in. intros [k v] Hin. cbn [fst]. f_equal.
  unfold Get. rewrite (own_property_NoDup _ _ _ Hnd Hin). reflexivity.
Qed.

Lemma X4_loader_lists_own_entries_witness :
  exists resp,
    outcome (loader (sample_context (Rejected (OtherError "Error")) Pending))
    = Return resp
    /\ response_body resp
       = LoaderData
           [("FLUX.1-Schnell-CF",
             VString "@cf/black-forest-labs/flux-1-schnell")]
           (config (sample_context (Rejected (OtherError "Error")) Pending)).
Proof.
  eexists. split; [reflexivity|].
  refine (X4_loader_lists_own_entries
            (sample_context (Rejected (OtherError "Error")) Pending)
            _ _ eq_refl).
  repeat constructor. intros [].
Defined.

(** X5. [loader] never calls [generateImage] and never throws; it fails to
    answer exactly when the connection test never settles. *)
Theorem X5_loader_settles_with_probe appContext :
  generateImage_calls (trace (loader appContext)) = []
  /\ (forall e, outcome (loader appContext) <> Throw e)
  /\ (outcome (loader appContext) = Never
      <-> testCfAiConnection (imageGenerationService appContext) = Pending).
Proof.
  destruct (testCfAiConnection (imageGenerationService appContext))
    as [u|e|] eqn:Hprobe.
  - rewrite (loader_fulfilled _ _ Hprobe).
    repeat split; try discriminate.
  - rewrite (loader_rejected _ _ Hprobe).
    repeat split; try discriminate.
  - rewrite (loader_pending _ Hprobe).
    repeat split; try discriminate.
Qed.

(** ** What validation looks at, and what it lets through *)

(** X6. Only the [prompt] and [model] fields decide whether a submission
    is accepted: two forms that agree on them are both dispatched, with the
    same model, or both rejected with the same response.  The [size] field
    is never checked: whatever it holds, also nothing at all, is what
    [generateImage] receives. *)
Theorem X6_validation_frame request request' appContext fd fd' :
  formData request = Fulfilled fd ->
  formData request' = Fulfilled fd' ->
  FormData_get fd "prompt" = FormData_get fd' "prompt" ->
  FormData_get fd "model" = FormData_get fd' "model" ->
  (exists p p' m n n',
      generateImage_calls (trace (action request appContext))
      = [(p, m, of_form (FormData_get fd "size"), n)]
      /\ generateImage_calls (trace (action request' appContext))
         = [(p', m, of_form (FormData_get fd' "size"), n')])
  \/ (generateImage_calls (trace (action request appContext)) = []
      /\ action request appContext = action request' appContext).
Proof.
  intros Hfd Hfd' Hprompt Hmodel.
  assert (Hm : resolved_model appContext fd = resolved_model appContext fd')
    by (unfold resolved_model; rewrite Hmodel; reflexivity).
  assert (Hv : validated appContext fd = validated appContext fd')
    by (unfold validated; rewrite Hprompt, Hm; reflexivity).
  destruct (validated appContext fd) eqn:Hacc.
  - left.
    exists (outbound_prompt fd), (outbound_prompt fd'),
      (resolved_model appContext fd),
      (parseInt (FormData_get fd "numSteps")),
      (parseInt (FormData_get fd' "numSteps")).
    rewrite !action_calls, Hfd, Hfd', Hacc, <- Hv, <- Hm. split; reflexivity.
  - right. split.
    + rewrite action_calls, Hfd, Hacc. reflexivity.
    + unfold validated in Hacc, Hv.
      destruct (ToBoolean (of_form (FormData_get fd "prompt"))) eqn:Hp.
      * cbn [andb] in Hacc.
        assert (Hp' : ToBoolean (of_form (FormData_get fd' "prompt")) = true)
          by (rewrite <- Hprompt; exact Hp).
        assert (Hm' : ToBoolean (resolved_model appContext fd') = false)
          by (rewrite <- Hm; exact Hacc).
        rewrite (action_invalid_model _ _ _ Hfd Hp Hacc),
          (action_invalid_model _ _ _ Hfd' Hp' Hm'). reflexivity.
      * assert (Hp' : ToBoolean (of_form (FormData_get fd' "prompt")) = false)
          by (rewrite <- Hprompt; exact Hp).
        rewrite (action_no_prompt _ _ _ Hfd Hp),
          (action_no_prompt _ _ _ Hfd' Hp'). reflexivity.
Qed.

Lemma X6_validation_frame_witness :
  (exists p p' m n n',
      generateImage_calls
        (trace (action (submission "a cat" "false" "FLUX.1-Schnell-CF"
                                   "1024x1024" "4")
                       (sample_context Pending Pending)))
      = [(p, m, VString "1024x1024", n)]
      /\ generateImage_calls
           (trace (action {| formData := Fulfilled
                               [ ("prompt", EString "a cat");
                                 ("model", EString "FLUX.1-Schnell-CF");
                                 ("size", EString "7x0") ] |}
                          (sample_context Pending Pending)))
         = [(p', m, VString "7x0", n')])
  \/ (generateImage_calls
        (trace (action (submission "a cat" "false" "FLUX.1-Schnell-CF"
                                   "1024x1024" "4")
                       (sample_context Pending Pending))) = []
      /\ action (submission "a cat" "false" "FLUX.1-Schnell-CF"
                            "1024x1024" "4")
                (sample_context Pending Pending)
         = action {| formData := Fulfilled
                       [ ("prompt", EString "a cat");
                         ("model", EString "FLUX.1-Schnell-CF");
                         ("size", EString "7x0") ] |}
                  (sample_context Pending Pending)).
Proof.
  exact (X6_validation_frame
           (submission "a cat" "false" "FLUX.1-Schnell-CF" "1024x1024" "4")
           {| formData := Fulfilled
                [ ("prompt", EString "a cat");
                  ("model", EString "FLUX.1-Schnell-CF");
                  ("size", EString "7x0") ] |}
           (sample_context Pending Pending)
           (submission_form "a cat" "false" "FLUX.1-Schnell-CF"
                            "1024x1024" "4")
           [ ("prompt", EString "a cat");
             ("model", EString "FLUX.1-Schnell-CF");
             ("size", EString "7x0") ]
           eq_refl eq_refl eq_refl eq_refl).
Defined.

(** X7. No default step count is applied on the server: a submission that
    is dispatched with its [numSteps] field absent, empty or a file reaches
    [generateImage] with [NaN]. *)
Theorem X7_missing_numSteps_is_NaN request appContext p m s n :
  In (call_generateImage p m s n) (trace (action request appContext)) ->
  exists fd,
    formData request = Fulfilled fd
    /\ (FormData_get fd "numSteps" = None
        \/ FormData_get fd "numSteps" = Some (EString "")
        \/ (exists f, FormData_get fd "numSteps" = Some (EFile f)) ->
        n = NaN).
Proof.
  intros Hin.
  destruct (action_call_inv _ _ _ _ _ _ Hin)
    as (fd & Hfd & _ & _ & _ & _ & ->).
  exists fd. split; [exact Hfd|].
  intros [-> | [-> | [f ->]]]; reflexivity.
Qed.

Lemma X7_missing_numSteps_is_NaN_witness :
  exists fd,
    formData {| formData := Fulfilled [ ("prompt", EString "a cat");
                                        ("model", EString "FLUX.1-Schnell-CF") ] |}
    = Fulfilled fd
    /\ (FormData_get fd "numSteps" = None
        \/ FormData_get fd "numSteps" = Some (EString "")
        \/ (exists f, FormData_get fd "numSteps" = Some (EFile f)) ->
        NaN = NaN).
Proof.
  refine (X7_missing_numSteps_is_NaN
            {| formData := Fulfilled [ ("prompt", EString "a cat");
                                       ("model", EString "FLUX.1-Schnell-CF") ] |}
            (sample_context Pending Pending)
            (VString "a cat")
            (VString "@cf/black-forest-labs/flux-1-schnell")
            VNull NaN _).
  vm_compute. do 3 right. left. reflexivity.
Defined.

(** ** What the log and the outcome tell *)

Ltac run_cases request appContext :=
  let HR := fresh "HR" in
  pose proof (action_Run request appContext) as HR;
  inversion HR as
    [ e Hfd Hrun | Hfd Hrun | fd Hfd Hp Hrun | fd Hfd Hp Hm Hrun
    | fd R Hfd Hv Hg Hrun | fd e Hfd Hv Hg Hrun | fd Hfd Hv Hg Hrun ];
  clear HR.

(** X8. The handler's log is faithful to the service call: the error line
    with error [e] is logged exactly when the call of [generateImage] was
    made and rejected with [e], and the success line exactly when it was
    made and fulfilled. *)
Theorem X8_log_reflects_call request appContext :
  (forall e,
      In (console_error "生成图片时出错:" e) (trace (action request appContext))
      <-> exists fd, formData request = Fulfilled fd
                     /\ validated appContext fd = true
                     /\ generateImage_promise appContext fd = Rejected e)
  /\ (In (console_log "Image generation successful")
         (trace (action request appContext))
      <-> exists fd R, formData request = Fulfilled fd
                       /\ validated appContext fd = true
                       /\ generateImage_promise appContext fd = Fulfilled R).
Proof.
  split; [intros err|]; (split; [intros Hin | intros Hex]).
  1, 3: run_cases request appContext; rewrite <- Hrun in Hin;
    cbn [trace fst preamble app In] in Hin;
    repeat (destruct Hin as [Hin|Hin]; [try discriminate Hin|]);
    try contradiction.
  - injection Hin as <-. exists fd. auto.
  - exists fd, R. auto.
  - destruct Hex as (fd & Hfd & Hv & Hg).
    rewrite (action_rejected _ _ _ Hfd Hv _ Hg). cbn. tauto.
  - destruct Hex as (fd & R & Hfd & Hv & Hg).
    rewrite (action_fulfilled _ _ _ Hfd Hv _ Hg). cbn. tauto.
Qed.

Lemma failure_response_outcome error :
  (valid_status (ToUint16 (failure_status error))
   /\ outcome (failure_response error)
      = Return {| response_status := ToUint16 (failure_status error);
                  response_body := ErrorData (failure_message error) |})
  \/ (~ valid_status (ToUint16 (failure_status error))
      /\ (outcome (failure_response error) = Throw (OtherError "RangeError")
          \/ outcome (failure_response error)
             = Throw (OtherError "TypeError"))).
Proof.
  rewrite failure_response_json.
  exact (json_outcome (ErrorData (failure_message error))
                      (Some (failure_status error))).
Qed.

(** The status of a failure is the error's own code, or 500. *)
Lemma failure_status_cases error :
  failure_status error = Finite false 500
  \/ exists a, error = AppErrorInstance a
               /\ status a = Some (failure_status error).
Proof.
  destruct error as [a|name]; [|left; reflexivity].
  cbn [failure_status]. unfold or_500.
  destruct (status a) as [n|] eqn:Hst; [|left; reflexivity].
  destruct (ToBoolean (VNumber n)); [|left; reflexivity].
  right. exists a. rewrite Hst. split; reflexivity.
Qed.

(** X9. Every response [action] returns has a status that a response with
    a body can carry, and that status is 200, 400 or 500 unless the call of
    [generateImage] rejected with an [AppError] carrying the status
    answered (taken modulo 2^16). *)
Theorem X9_response_status request appContext resp :
  outcome (action request appContext) = Return resp ->
  valid_status (response_status resp)
  /\ (response_status resp = 200%N
      \/ response_status resp = 400%N
      \/ response_status resp = 500%N
      \/ exists fd a code,
           formData request = Fulfilled fd
           /\ generateImage_promise appContext fd
              = Rejected (AppErrorInstance a)
           /\ status a = Some code
           /\ response_status resp = ToUint16 code).
Proof.
  intros Hout. run_cases request appContext; rewrite <- Hrun in Hout;
    cbn [outcome snd] in Hout; try discriminate Hout.
  - injection Hout as <-. cbn. split; [unfold valid_status; lia|]. auto.
  - injection Hout as <-. cbn. split; [unfold valid_status; lia|]. auto.
  - injection Hout as <-. cbn. split; [unfold valid_status; lia|]. auto.
  - destruct (failure_response_outcome e) as [[Hvalid Hret]|[_ [Hthrow|Hthrow]]];
      [|rewrite Hthrow in Hout; discriminate Hout
       |rewrite Hthrow in Hout; discriminate Hout].
    rewrite Hret in Hout. injection Hout as <-. cbn. split; [exact Hvalid|].
    destruct (failure_status_cases e) as [-> | (a & -> & Hst)].
    + right. right. left. reflexivity.
    + right. right. right. exists fd, a, (failure_status (AppErrorInstance a)).
      repeat split; assumption.
Qed.

Lemma X9_response_status_witness :
  valid_status 503
  /\ (503%N = 200%N \/ 503%N = 400%N \/ 503%N = 500%N
      \/ exists fd a code,
           formData (submission "a cat" "false" "FLUX.1-Schnell-CF"
                                "1024x1024" "4")
           = Fulfilled fd
           /\ generateImage_promise
                (sample_context Pending
                   (Rejected (AppErrorInstance
                                {| message := "overloaded";
                                   status := Some (Finite false 503) |})))
                fd
              = Rejected (AppErrorInstance a)
           /\ status a = Some code
           /\ 503%N = ToUint16 code).
Proof.
  exact (X9_response_status
           (submission "a cat" "false" "FLUX.1-Schnell-CF" "1024x1024" "4")
           (sample_context Pending
              (Rejected (AppErrorInstance
                           {| message := "overloaded";
                              status := Some (Finite false 503) |})))
           {| response_status := 503;
              response_body := ErrorData "生成图片失败: overloaded" |}
           eq_refl).
Defined.

(** X10. [action] throws only in two cases: [request.formData()] rejected,
    and then it throws that error; or the call of [generateImage] rejected
    with an [AppError] whose status code no response can carry, and then
    the [Response] constructor's [RangeError] or [TypeError] escapes.  A
    failure that is not an [AppError] never escapes. *)
Theorem X10_what_action_throws request appContext err :
  outcome (action request appContext) = Throw err ->
  formData request = Rejected err
  \/ exists fd a code,
       formData request = Fulfilled fd
       /\ generateImage_promise appContext fd = Rejected (AppErrorInstance a)
       /\ status a = Some code
       /\ ~ valid_status (ToUint16 code)
       /\ (err = OtherError "RangeError" \/ err = OtherError "TypeError").
Proof.
  intros Hout. run_cases request appContext; rewrite <- Hrun in Hout;
    cbn [outcome snd] in Hout; try discriminate Hout.
  - injection Hout as <-. left. exact Hfd.
  - right.
    destruct (failure_response_outcome e) as [[_ Hret]|[Hinvalid Hthrow]];
      [rewrite Hret in Hout; discriminate Hout|].
    destruct (failure_status_cases e) as [H500 | (a & -> & Hst)].
    + destruct Hinvalid. rewrite H500. cbn. unfold valid_status. lia.
    + exists fd, a, (failure_status (AppErrorInstance a)).
      repeat split; try assumption.
      destruct Hthrow as [H|H]; rewrite H in Hout; injection Hout as <-; auto.
Qed.

Lemma X10_what_action_throws_witness :
  formData (submission "a cat" "false" "FLUX.1-Schnell-CF" "1024x1024" "4")
  = Rejected (OtherError "RangeError")
  \/ exists fd a code,
       formData (submission "a cat" "false" "FLUX.1-Schnell-CF"
                            "1024x1024" "4")
       = Fulfilled fd
       /\ generateImage_promise
            (sample_context Pending
               (Rejected (AppErrorInstance
                            {| message := "overloaded";
                               status := Some (Finite false 99) |})))
            fd
          = Rejected (AppErrorInstance a)
       /\ status a = Some code
       /\ ~ valid_status (ToUint16 code)
       /\ (OtherError "RangeError" = OtherError "RangeError"
           \/ OtherError "RangeError" = OtherError "TypeError").
Proof.
  exact (X10_what_action_throws
           (submission "a cat" "false" "FLUX.1-Schnell-CF" "1024x1024" "4")
           (sample_context Pending
              (Rejected (AppErrorInstance
                           {| message := "overloaded";
                              status := Some (Finite false 99) |})))
           (OtherError "RangeError") eq_refl).
Defined.

(** X11. [action] fails to settle exactly when the request body never
    arrives or the awaited call of [generateImage] never settles: there is
    no timeout. *)
Theorem X11_action_hangs_with_its_awaits request appContext :
  outcome (action request appContext) = Never
  <-> formData request = Pending
      \/ exists fd, formData request = Fulfilled fd
                    /\ validated appContext fd = true
                    /\ generateImage_promise appContext fd = Pending.
Proof.
  split.
  - intros Hout. run_cases request appContext; rewrite <- Hrun in Hout;
      cbn [outcome snd] in Hout; try discriminate Hout.
    + left. exact Hfd.
    + destruct (failure_response_outcome e)
        as [[_ Hret]|[_ [Hthrow|Hthrow]]];
        [rewrite Hret in Hout|rewrite Hthrow in Hout|rewrite Hthrow in Hout];
        discriminate Hout.
    + right. exists fd. auto.
  - intros [Hfd | (fd & Hfd & Hv & Hg)].
    + rewrite (action_formData_pending _ _ Hfd). reflexivity.
    + rewrite (action_pending _ _ _ Hfd Hv Hg). reflexivity.
Qed.

(** * Properties of the component *)

(** ** The form state *)

Lemma after_app config evs evs' s :
  GenerateImage.after config (evs ++ evs') s
  = GenerateImage.after config evs' (GenerateImage.after config evs s).
Proof. unfold GenerateImage.after. apply fold_left_app. Qed.

(** X12. Reset brings back the state of the first render: after any
    sequence of edits that ends with a reset, every field has the value its
    [useState] initialiser gave it. *)
Theorem X12_reset_restores_initial_state config evs s :
  GenerateImage.after config (evs ++ [GenerateImage.Reset]) s
  = GenerateImage.initial config.
Proof. rewrite after_app. reflexivity. Qed.

Lemma toggle_iter_frame n s :
  let s' := Nat.iter n GenerateImage.handleEnhanceToggle s in
  GenerateImage.prompt s' = GenerateImage.prompt s
  /\ GenerateImage.model s' = GenerateImage.model s
  /\ GenerateImage.size s' = GenerateImage.size s
  /\ GenerateImage.numSteps s' = GenerateImage.numSteps s.
Proof.
  cbv zeta. induction n as [|n IH]; [repeat split|].
  rewrite Nat.iter_succ. exact IH.
Qed.

(** X13. The enhance button is a toggle: after [n] clicks the flag is
    flipped when [n] is odd and back where it was when [n] is even, and no
    other field of the form has changed. *)
Theorem X13_enhance_toggle_parity n s :
  let s' := Nat.iter n GenerateImage.handleEnhanceToggle s in
  GenerateImage.enhance s' = xorb (Nat.odd n) (GenerateImage.enhance s)
  /\ GenerateImage.prompt s' = GenerateImage.prompt s
  /\ GenerateImage.model s' = GenerateImage.model s
  /\ GenerateImage.size s' = GenerateImage.size s
  /\ GenerateImage.numSteps s' = GenerateImage.numSteps s.
Proof.
  cbv zeta. split; [|apply toggle_iter_frame].
  induction n as [|n IH]; [reflexivity|].
  rewrite Nat.iter_succ.
  cbn [GenerateImage.handleEnhanceToggle GenerateImage.enhance].
  rewrite IH, Nat.odd_succ, <- Nat.negb_odd.
  destruct (Nat.odd n), (GenerateImage.enhance s); reflexivity.
Qed.

(** ** From the form to the service *)

Lemma Boolean_toString_read_back b :
  strict_eq_string (Some (EString (GenerateImage.Boolean_toString b))) "true"
  = b.
Proof. destruct b; reflexivity. Qed.

(** X14. The enhancement flag survives the trip through the hidden input:
    when the submitted form carries the component's prompt and its hidden
    [enhance] value, the prompt that reaches [generateImage] has the
    marker in front exactly when the flag was set in the component. *)
Theorem X14_enhance_round_trip s request appContext fd p m sz n :
  formData request = Fulfilled fd ->
  FormData_get fd "prompt" = Some (EString (GenerateImage.textarea_prompt s)) ->
  FormData_get fd "enhance" = Some (EString (GenerateImage.hidden_enhance s)) ->
  In (call_generateImage p m sz n) (trace (action request appContext)) ->
  p = VString (if GenerateImage.enhance s
               then "---tl " ++ GenerateImage.prompt s
               else GenerateImage.prompt s).
Proof.
  intros Hfd Hprompt Henh Hin.
  destruct (action_call_inv _ _ _ _ _ _ Hin)
    as (fd' & Hfd' & _ & -> & _ & _ & _).
  rewrite Hfd in Hfd'. injection Hfd' as <-.
  unfold outbound_prompt, GenerateImage.hidden_enhance in *.
  rewrite Henh, Boolean_toString_read_back, Hprompt.
  destruct (GenerateImage.enhance s); reflexivity.
Qed.

Lemma X14_enhance_round_trip_witness :
  VString "---tl a cat"
  = VString
      (if GenerateImage.enhance
            {| GenerateImage.prompt := "a cat";
               GenerateImage.enhance := true;
               GenerateImage.model := VString "FLUX.1-Schnell-CF";
               GenerateImage.size := "1024x1024";
               GenerateImage.numSteps := VNumber (Finite false 4) |}
       then "---tl " ++ "a cat" else "a cat").
Proof.
  refine (X14_enhance_round_trip
            {| GenerateImage.prompt := "a cat";
               GenerateImage.enhance := true;
               GenerateImage.model := VString "FLUX.1-Schnell-CF";
               GenerateImage.size := "1024x1024";
               GenerateImage.numSteps := VNumber (Finite false 4) |}
            (submission "a cat" "true" "FLUX.1-Schnell-CF" "1024x1024" "4")
            (sample_context Pending Pending)
            (submission_form "a cat" "true" "FLUX.1-Schnell-CF"
                             "1024x1024" "4")
            (VString "---tl a cat")
            (VString "@cf/black-forest-labs/flux-1-schnell")
            (VString "1024x1024") (Finite false 4)
            eq_refl eq_refl eq_refl _).
  vm_compute. do 3 right. left. reflexivity.
Defined.

(** X15. The step slider stores what it shows: when the range input's
    value is the decimal numeral of an integer [k] up to 2^53 (the slider
    itself offers 4..8), the handler stores the number [k] and leaves
    every other field as it was. *)
Theorem X15_slider_stores_its_value k s :
  (k <= 2 ^ 53)%N ->
  let s' := GenerateImage.handleNumStepsChange (decimal k) s in
  GenerateImage.numSteps s' = VNumber (Finite false k)
  /\ GenerateImage.prompt s' = GenerateImage.prompt s
  /\ GenerateImage.enhance s' = GenerateImage.enhance s
  /\ GenerateImage.model s' = GenerateImage.model s
  /\ GenerateImage.size s' = GenerateImage.size s.
Proof.
  intros Hk. cbv zeta.
  cbn [GenerateImage.handleNumStepsChange GenerateImage.numSteps
       GenerateImage.prompt GenerateImage.enhance
       GenerateImage.model GenerateImage.size].
  rewrite (parseInt_decimal _ Hk). repeat split.
Qed.

Lemma X15_slider_stores_its_value_witness :
  GenerateImage.numSteps
    (GenerateImage.handleNumStepsChange
       (decimal 8)
       {| GenerateImage.prompt := "a cat";
          GenerateImage.enhance := false;
          GenerateImage.model := VString "FLUX.1-Schnell-CF";
          GenerateImage.size := "1024x1024";
          GenerateImage.numSteps := VNumber (Finite false 4) |})
  = VNumber (Finite false 8).
Proof.
  refine (proj1
            (X15_slider_stores_its_value
               8%N
               {| GenerateImage.prompt := "a cat";
                  GenerateImage.enhance := false;
                  GenerateImage.model := VString "FLUX.1-Schnell-CF";
                  GenerateImage.size := "1024x1024";
                  GenerateImage.numSteps := VNumber (Finite false 4) |}
               _)).
  apply N.leb_le. reflexivity.
Defined.

(** ** What the component shows of a response *)

(** X16. Every response [action] returns is rendered for what it is.  An
    error response shows its message in the error box (no error string of
    the handler is empty) and no image.  A success response shows no error
    box, and shows the image, as a JPEG data URL with both prompts, unless
    the image string is empty, in which case the placeholder stays.  While
    a submission is in flight the result column is the spinner. *)
Theorem X16_response_rendering request appContext resp :
  outcome (action request appContext) = Return resp ->
  result_panel true (Some (response_body resp)) = Spinner
  /\ match response_body resp with
     | ErrorData e =>
         error_box (Some (response_body resp)) = Some e
         /\ result_panel false (Some (response_body resp)) = Placeholder
     | ResultData r =>
         error_box (Some (response_body resp)) = None
         /\ result_panel false (Some (response_body resp))
            = if String.eqb (image r) "" then Placeholder
              else GeneratedImage ("data:image/jpeg;base64," ++ image r)
                                  (prompt r) (translatedPrompt r)
     | LoaderData _ _ => False
     end.
Proof.
  intros Hout. split; [reflexivity|].
  run_cases request appContext; rewrite <- Hrun in Hout;
    cbn [outcome snd] in Hout; try discriminate Hout.
  - injection Hout as <-. split; reflexivity.
  - injection Hout as <-. split; reflexivity.
  - injection Hout as <-. cbn [response_body]. split; [reflexivity|].
    unfold result_panel, actionData_image. cbn [ToBoolean].
    destruct (String.eqb (image R) ""); reflexivity.
  - destruct (failure_response_outcome e) as [[_ Hret]|[_ [Hthrow|Hthrow]]];
      [|rewrite Hthrow in Hout; discriminate Hout
       |rewrite Hthrow in Hout; discriminate Hout].
    rewrite Hret in Hout. injection Hout as <-. cbn [response_body].
    split; [|reflexivity].
    unfold error_box, actionData_error.
    rewrite failure_message_truthy. reflexivity.
Qed.

Lemma X16_response_rendering_witness :
  result_panel true (Some (ResultData sample_result)) = Spinner
  /\ (error_box (Some (ResultData sample_result)) = None
      /\ result_panel false (Some (ResultData sample_result))
         = GeneratedImage "data:image/jpeg;base64,/9j/4AAQ" "a cat" "a cat").
Proof.
  exact (X16_response_rendering
           (submission "a cat" "false" "FLUX.1-Schnell-CF" "1024x1024" "4")
           (sample_context Pending (Fulfilled sample_result))
           {| response_status := 200;
              response_body := ResultData sample_result |}
           eq_refl).
Defined.

(** ** The submit button *)

(** X17. In the sessions where every submit event finds the component
    rendered from the current navigation, a view that is up to date shows
    on the submit button whether a submission is in flight: disabled with
    the busy label exactly while one is, enabled with the idle label
    otherwise. *)
Theorem X17_submit_button_tracks_flight c :
  reachable_rendered c ->
  rendered c = navigation_state c ->
  submit_button (isSubmitting (rendered c))
  = if Nat.eqb (in_flight c) 1 then ("生成中...", true) else ("生成图片", false).
Proof.
  intros Hreach Hsync.
  pose proof (reachable_rendered_invariant _ Hreach) as Hinv.
  unfold session_invariant in Hinv. rewrite Hsync.
  destruct (navigation_state c); rewrite Hinv; reflexivity.
Qed.

Lemma X17_submit_button_tracks_flight_witness :
  submit_button
    (isSubmitting (rendered (render (Form_onSubmit initial_session))))
  = ("生成中...", true).
Proof.
  refine (X17_submit_button_tracks_flight
            (render (Form_onSubmit initial_session)) _ eq_refl).
  apply (rendered_router (Form_onSubmit initial_session));
    [|apply step_render].
  apply (rendered_submit initial_session); [apply rendered_initial|].
  reflexivity.
Defined.
